(** * ts-image-proxy: the image relay of [index.js]

    A shallow embedding of the request handler [GET /proxy/image] and of the
    functions it calls ([isValidImageUrl], [setCacheHeaders],
    [generateRandomIP]), followed by the properties of the relay.

    Conventions of the embedding.
    - A JavaScript string is a [string]; its characters stand for code units.
    - The platform's URL parser ([new URL]) and the upstream network are not
      part of the program: the parser is a section variable, the network an
      oracle that answers the k-th call of a request.
    - The handler runs in a state-and-exception monad.  A JavaScript
      exception keeps the side effects performed before it was thrown, so the
      state is returned next to the exception, not instead of it.
    - The outward response is what the handler hands to the framework through
      [res.status], [res.set], [res.json] and [res.send], with what the
      framework (express 4) does to it on the way: the default charset that
      [res.set] appends to a Content-Type, the case-insensitive header names,
      and the freshness test of [res.send] that answers a conditional request
      with 304.  Headers that the framework or other middleware add on their
      own (Content-Length, a generated ETag, the Content-Type of [res.json])
      are outside the model, and so are HEAD requests.
    - The routes [/] and [/health], the unused helper [delay] and the
      process bootstrap are not modelled. *)

From Stdlib Require Import QArith Qround.
From Stdlib Require Import DecimalString.
From Stdlib Require Import Ascii.
From stdpp Require Import base strings list gmap.

Open Scope string_scope.

(** ** JavaScript string operations used by the validator *)

Module JsString.

(** [s.startsWith(d)] *)
Definition startsWith (s d : string) : bool := String.prefix d s.

(** [s.includes(d)]: [d] occurs at some position of [s]. *)
Fixpoint includes (s d : string) : bool :=
  startsWith s d ||
  match s with
  | EmptyString => false
  | String _ s' => includes s' d
  end.

(** [s.endsWith(d)]: the last [d.length] code units of [s] are [d]. *)
Definition endsWith (s d : string) : bool :=
  if (String.length s <? String.length d)%nat then false
  else String.eqb
         (String.substring (String.length s - String.length d)
                           (String.length d) s) d.

(** [l.join(sep)] on an array of strings. *)
Fixpoint join (sep : string) (l : list string) : string :=
  match l with
  | [] => ""
  | [x] => x
  | x :: l' => x ++ sep ++ join sep l'
  end.

(** [String(n)] for an integer number [n]; JavaScript prints the same
    decimal digits for every integer it represents exactly below 10^21. *)
Definition ofZ (n : Z) : string := NilZero.string_of_int (Z.to_int n).

(** [Number.isSafeInteger(n)] *)
Definition isSafeInteger (n : Z) : Prop :=
  (- (2 ^ 53 - 1) <= n <= 2 ^ 53 - 1)%Z.

(** [s.toLowerCase()] on code units below 256: the letters A-Z and the
    Latin-1 capitals except the multiplication sign. *)
Definition lowerCodeUnit (c : Ascii.ascii) : Ascii.ascii :=
  let n := Ascii.nat_of_ascii c in
  if ((65 <=? n) && (n <=? 90))%nat then Ascii.ascii_of_nat (n + 32)
  else if ((192 <=? n) && (n <=? 222) && negb (n =? 215))%nat
       then Ascii.ascii_of_nat (n + 32)
       else c.

Fixpoint toLowerCase (s : string) : string :=
  match s with
  | EmptyString => EmptyString
  | String c s' => String (lowerCodeUnit c) (toLowerCase s')
  end.

(** The class [\s] of regular expressions, on code units below 256. *)
Definition isWhiteSpace (c : Ascii.ascii) : bool :=
  let n := Ascii.nat_of_ascii c in
  ((9 <=? n) && (n <=? 13) || (n =? 32) || (n =? 160))%nat.

(** The rest of [s] after its leading white space. *)
Fixpoint dropWhiteSpace (s : string) : string :=
  match s with
  | EmptyString => EmptyString
  | String c s' => if isWhiteSpace c then dropWhiteSpace s' else s
  end.

(** [s.substring(n)] *)
Definition dropPrefix (n : nat) (s : string) : string :=
  String.substring n (String.length s - n) s.

(** [s.split(sep)[0]] for a one-character separator. *)
Fixpoint beforeFirst (sep : Ascii.ascii) (s : string) : string :=
  match s with
  | EmptyString => EmptyString
  | String c s' =>
      if Ascii.eqb c sep then EmptyString else String c (beforeFirst sep s')
  end.

End JsString.

(** ** Values of [req.query.url]

    The framework's query parser yields [undefined] when the parameter is
    absent, a string for [?url=...], and arrays or objects for the bracket
    forms ([?url[]=a&url[]=b], [?url[k]=v]). *)

#[warnings="-register-all"]
Inductive QueryValue : Type :=
| QUndefined
| QString (s : string)
| QArray (elems : list QueryValue)
| QObject (fields : list (string * QueryValue)).

(** [!v] is [negb (truthy v)]: [undefined] and the empty string are falsy,
    every array and object is truthy. *)
Definition truthy (v : QueryValue) : bool :=
  match v with
  | QUndefined => false
  | QString s => negb (String.eqb s "")
  | QArray _ | QObject _ => true
  end.

(** [String(v)], the conversion [new URL(v)] applies to its argument. *)
Fixpoint toString (v : QueryValue) : string :=
  match v with
  | QUndefined => "undefined"
  | QString s => s
  | QArray elems =>
      JsString.join ","
        (map (fun e => match e with QUndefined => "" | _ => toString e end) elems)
  | QObject _ => "[object Object]"
  end.

(** ** URL validation *)

(** The part of a parsed URL the program reads. *)
Record URL : Type := { hostname : string }.

Definition validDomains : list string :=
  [ "scontent.cdninstagram.com";
    "instagram.com";
    "threads.net";
    "fbcdn.net";
    "scontent.xx.fbcdn.net" ].

Section Validator.

(** [new URL(s)]: [None] when the constructor throws. *)
Variable parseURL : string -> option URL.

Definition isValidImageUrl (url : QueryValue) : bool :=
  match parseURL (toString url) with
  | Some parsedUrl =>
      existsb
        (fun domain =>
           JsString.includes (hostname parsedUrl) domain ||
           JsString.endsWith (hostname parsedUrl) domain)
        validDomains
  | None => false
  end.

(** The validator with the [endsWith] disjunct deleted; it is compared with
    [isValidImageUrl] below. *)
Definition isValidImageUrl_includes_only (url : QueryValue) : bool :=
  match parseURL (toString url) with
  | Some parsedUrl =>
      existsb (fun domain => JsString.includes (hostname parsedUrl) domain)
              validDomains
  | None => false
  end.

End Validator.

(** A finite excerpt of the platform's URL parser: the inputs listed here,
    with the host [new URL] reports for them (the first two are rejected by
    the constructor).  It instantiates the statements below at concrete
    requests; inputs outside the table are not used. *)
Definition sampleURLs : list (string * option URL) :=
  [ ("", None);
    ("not a url", None);
    ("https://scontent.cdninstagram.com/foo.jpg",
       Some {| hostname := "scontent.cdninstagram.com" |});
    ("https://scontent-iad3-1.cdninstagram.com/a.jpg",
       Some {| hostname := "scontent-iad3-1.cdninstagram.com" |});
    ("https://evil.example.com/x.jpg",
       Some {| hostname := "evil.example.com" |});
    ("https://instagram.com.attacker.net/x.jpg",
       Some {| hostname := "instagram.com.attacker.net" |});
    ("https://evilinstagram.com/x.jpg",
       Some {| hostname := "evilinstagram.com" |}) ].

Definition sampleParse (s : string) : option URL :=
  match find (fun e => String.eqb (fst e) s) sampleURLs with
  | Some e => snd e
  | None => None
  end.

(** ** The HTTP client

    [axios(config)] either resolves with a response or rejects with an
    error; the handler reads [response.headers["content-type"]],
    [response.data], [error.code], [error.response?.status] and
    [error.message]. *)

Record AxiosConfig : Type := {
  method : string;
  url : QueryValue;
  headers : gmap string string;
  responseType : string;
  timeout : Z;
  maxRedirects : Z
}.

Record AxiosResponse : Type := {
  status : Z;
  response_headers : gmap string string;
  data : list Byte.byte
}.

Record AxiosError : Type := {
  code : option string;
  response : option AxiosResponse;
  message : string
}.

Definition AxiosResult : Type := AxiosResponse + AxiosError.

(** The client library's settlement of a transport-level outcome, after
    axios 1.x ([lib/core/settle.js], [lib/adapters/http.js]); this is the
    library's contract, not code of the program.
    - A final response (redirects already followed) resolves when its status
      satisfies the default [validateStatus], 200 <= status < 300, and is
      rejected otherwise with the response attached.
    - A system error of the socket or the resolver (ENOTFOUND for a failed
      DNS resolution, ECONNREFUSED, ECONNRESET, the operating system's own
      ETIMEDOUT, ...) is rejected with that code.
    - When the [timeout] of the request elapses the request is aborted and
      rejected with code ECONNABORTED, or with ETIMEDOUT when the request
      sets [transitional.clarifyTimeoutError]; no request of the program
      sets it. *)
Module Axios.

Inductive Outcome : Type :=
| Responded (st : Z) (hs : gmap string string) (body : list Byte.byte)
| SystemError (errcode : string) (msg : string)
| TimeoutElapsed.

Definition validateStatus (st : Z) : bool := (200 <=? st)%Z && (st <? 300)%Z.

Definition badStatusCode (st : Z) : option string :=
  if (400 <=? st)%Z && (st <? 500)%Z then Some "ERR_BAD_REQUEST"
  else if (500 <=? st)%Z && (st <? 600)%Z then Some "ERR_BAD_RESPONSE"
  else None.

Definition clarifyTimeoutError : bool := false.

Definition timeoutCode : string :=
  if clarifyTimeoutError then "ETIMEDOUT" else "ECONNABORTED".

Definition settle (config : AxiosConfig) (o : Outcome) : AxiosResult :=
  match o with
  | Responded st hs body =>
      let r := {| status := st; response_headers := hs; data := body |} in
      if validateStatus st then inl r
      else inr {| code := badStatusCode st;
                  response := Some r;
                  message := "Request failed with status code " ++ JsString.ofZ st |}
  | SystemError c msg =>
      inr {| code := Some c; response := None; message := msg |}
  | TimeoutElapsed =>
      inr {| code := Some timeoutCode;
             response := None;
             message := "timeout of " ++ JsString.ofZ (timeout config) ++ "ms exceeded" |}
  end.

End Axios.

(** ** The outward response and the state of one request *)

Inductive Body : Type :=
| JsonBody (fields : list (string * string))
| BufferBody (bytes : list Byte.byte).

(** [req], as far as the framework reads it when it sends the answer of a
    GET request: the headers, under their lower-case names, and the
    platform's comparison of HTTP dates, [notModifiedSince lm] standing for
    [Date.parse(lm) <= Date.parse(req.headers["if-modified-since"])]. *)
Record IncomingMessage : Type := {
  reqHeaders : gmap string string;
  notModifiedSince : string -> bool
}.

(** A request without headers. *)
Definition plainRequest : IncomingMessage :=
  {| reqHeaders := ∅; notModifiedSince := fun _ => false |}.

(** [res]: the status code (200 until [res.status] changes it), the headers
    set through [res.set], the body once [res.json] or [res.send] has
    been called, and the request it answers ([res.req]). *)
Record ServerResponse : Type := {
  statusCode : Z;
  outHeaders : gmap string string;
  sent : option Body;
  req : IncomingMessage
}.

(** The response object the handler receives for the request [q]. *)
Definition responseTo (q : IncomingMessage) : ServerResponse :=
  {| statusCode := 200; outHeaders := ∅; sent := None; req := q |}.

Definition freshResponse : ServerResponse :=
  {| statusCode := 200; outHeaders := ∅; sent := None; req := plainRequest |}.

(** ** The framework: header names, default charsets, freshness

    After express 4 ([lib/response.js], [lib/request.js]) with its
    dependencies [mime] 1.x and [fresh] 0.5: the library's contract, not
    code of the program. *)

Module Express.

(** [res.setHeader(name, value)] of the platform: names are compared without
    regard to case, and the last spelling is the one that is kept. *)
Definition setHeader (name value : string) (hs : gmap string string)
  : gmap string string :=
  <[name := value]>
    (filter (fun kv => JsString.toLowerCase kv.1 <> JsString.toLowerCase name) hs).

(** [res.get(name)] *)
Definition getHeader (name : string) (hs : gmap string string) : option string :=
  snd <$> head (map_to_list
    (filter (fun kv => JsString.toLowerCase kv.1 = JsString.toLowerCase name) hs)).

(** [res.removeHeader(name)] *)
Definition removeHeader (name : string) (hs : gmap string string)
  : gmap string string :=
  filter (fun kv => JsString.toLowerCase kv.1 <> JsString.toLowerCase name) hs.

(** A semicolon, white space, [charset], white space, an equals sign, read
    from the start of [s]. *)
Definition charsetParamHere (s : string) : bool :=
  match s with
  | String c rest =>
      Ascii.eqb c ";"%char &&
      (let t := JsString.dropWhiteSpace rest in
       JsString.startsWith t "charset" &&
       JsString.startsWith
         (JsString.dropWhiteSpace (JsString.dropPrefix 7 t)) "=")
  | EmptyString => false
  end.

(** [charsetRegExp.test(value)], the expression being
    [/;\s*charset\s*=/]. *)
Fixpoint charsetRegExp_test (value : string) : bool :=
  charsetParamHere value ||
  match value with
  | EmptyString => false
  | String _ rest => charsetRegExp_test rest
  end.

(** [mime.charsets.lookup(mimeType)]: UTF-8 for the types that match
    [/^text\/|^application\/(javascript|json)/], nothing for the others. *)
Definition charsets_lookup (mimeType : string) : option string :=
  if JsString.startsWith mimeType "text/" ||
     JsString.startsWith mimeType "application/javascript" ||
     JsString.startsWith mimeType "application/json"
  then Some "UTF-8"
  else None.

(** The value [res.set] stores for a Content-Type. *)
Definition contentTypeValue (value : string) : string :=
  if charsetRegExp_test value then value
  else match charsets_lookup (JsString.beforeFirst ";"%char value) with
       | Some charset => value ++ "; charset=" ++ JsString.toLowerCase charset
       | None => value
       end.

(** A header value that is neither missing nor empty. *)
Definition present (v : option string) : bool :=
  match v with
  | Some s => negb (String.eqb s "")
  | None => false
  end.

(** [parseTokenList(str)] of [fresh]: the comma-separated tokens, without
    the spaces around them.  [i] is the index of the first code unit of
    [rest]; [start] and [stop] delimit the token being read. *)
Fixpoint parseTokenList_from (str rest : string) (i start stop : nat)
  (tokens : list string) : list string :=
  match rest with
  | EmptyString => tokens ++ [String.substring start (stop - start) str]
  | String c rest' =>
      if Ascii.eqb c " "%char then
        if (start =? stop)%nat
        then parseTokenList_from str rest' (S i) (S i) (S i) tokens
        else parseTokenList_from str rest' (S i) start stop tokens
      else if Ascii.eqb c ","%char then
        parseTokenList_from str rest' (S i) (S i) (S i)
          (tokens ++ [String.substring start (stop - start) str])
      else parseTokenList_from str rest' (S i) start (S i) tokens
  end.

Definition parseTokenList (str : string) : list string :=
  parseTokenList_from str str 0 0 0 [].

(** White space, [no-cache], white space, then a comma or the end, read from
    the start of [s]. *)
Definition noCacheHere (s : string) : bool :=
  let t := JsString.dropWhiteSpace s in
  JsString.startsWith t "no-cache" &&
  (let u := JsString.dropWhiteSpace (JsString.dropPrefix 8 t) in
   String.eqb u "" || JsString.startsWith u ",").

Fixpoint noCacheAfterComma (s : string) : bool :=
  match s with
  | EmptyString => false
  | String c rest =>
      (Ascii.eqb c ","%char && noCacheHere rest) || noCacheAfterComma rest
  end.

(** [CACHE_CONTROL_NO_CACHE_REGEXP.test(s)], the expression being
    [/(?:^|,)\s*?no-cache\s*?(?:,|$)/]. *)
Definition noCacheRegExp_test (s : string) : bool :=
  noCacheHere s || noCacheAfterComma s.

(** [fresh(req.headers, { etag, "last-modified" })] *)
Definition fresh (q : IncomingMessage) (etag lastModified : option string)
  : bool :=
  let modifiedSince := reqHeaders q !! "if-modified-since" in
  let noneMatch := reqHeaders q !! "if-none-match" in
  if negb (present modifiedSince) && negb (present noneMatch) then false
  else if match reqHeaders q !! "cache-control" with
          | Some cacheControl =>
              negb (String.eqb cacheControl "") && noCacheRegExp_test cacheControl
          | None => false
          end
  then false
  else if match noneMatch, etag with
          | Some nm, Some tag =>
              negb (String.eqb nm "") && negb (String.eqb nm "*") &&
              (String.eqb tag "" ||
               negb (existsb
                       (fun m => String.eqb m tag ||
                                 String.eqb m ("W/" ++ tag) ||
                                 String.eqb ("W/" ++ m) tag)
                       (parseTokenList nm)))
          | Some nm, None =>
              negb (String.eqb nm "") && negb (String.eqb nm "*")
          | None, _ => false
          end
  then false
  else if match modifiedSince, lastModified with
          | Some ms, Some lm =>
              negb (String.eqb ms "") &&
              (String.eqb lm "" || negb (notModifiedSince q lm))
          | Some ms, None => negb (String.eqb ms "")
          | None, _ => false
          end
  then false
  else true.

End Express.

(** [req.fresh] for a GET request: only an answer with a status of the 2xx
    class or 304 can be fresh. *)
Definition req_fresh (r : ServerResponse) : bool :=
  if ((200 <=? statusCode r)%Z && (statusCode r <? 300)%Z) ||
     (statusCode r =? 304)%Z
  then Express.fresh (req r)
         (Express.getHeader "ETag" (outHeaders r))
         (Express.getHeader "Last-Modified" (outHeaders r))
  else false.

(** What a request has done so far: the number of [Math.random()] calls, the
    network calls issued (oldest first), the console lines, and [res]. *)
Record State : Type := {
  draws : nat;
  calls : list AxiosConfig;
  console : list string;
  res : ServerResponse
}.

Definition initialState : State :=
  {| draws := 0; calls := []; console := []; res := freshResponse |}.

(** A value of [Math.random()]: a number in [0, 1). *)
Record Random : Type := {
  rvalue : Q;
  rvalue_range : Qle_bool 0 rvalue && negb (Qle_bool 1 rvalue) = true
}.

(** ** The monad of the handler *)

Inductive Completion (A : Type) : Type :=
| Normal (a : A)
| Throw (error : AxiosError).
Arguments Normal {A} a.
Arguments Throw {A} error.

Definition M (A : Type) : Type := State -> Completion A * State.

Definition ret {A} (a : A) : M A := fun st => (Normal a, st).

Definition bind {A B} (m : M A) (k : A -> M B) : M B :=
  fun st =>
    match m st with
    | (Normal a, st') => k a st'
    | (Throw e, st') => (Throw e, st')
    end.

#[global] Instance M_ret : MRet M := @ret.
#[global] Instance M_bind : MBind M := fun A B k m => bind m k.

Definition throw {A} (e : AxiosError) : M A := fun st => (Throw e, st).

(** [try { body } catch (error) { handler(error) }] *)
Definition try_catch {A} (body : M A) (handler : AxiosError -> M A) : M A :=
  fun st =>
    match body st with
    | (Normal a, st') => (Normal a, st')
    | (Throw e, st') => handler e st'
    end.

(** *** Operations on [res] and the console *)

Definition with_res (f : ServerResponse -> ServerResponse) : M unit :=
  fun st =>
    (Normal tt,
     {| draws := draws st; calls := calls st; console := console st;
        res := f (res st) |}).

(** [res.status(n)] *)
Definition res_status (n : Z) : M unit :=
  with_res (fun r =>
    {| statusCode := n; outHeaders := outHeaders r; sent := sent r;
       req := req r |}).

(** [res.set(field, value)] for a string value: a Content-Type without a
    charset gets the default charset of its type, and the header replaces an
    earlier one of the same name in any spelling. *)
Definition res_set (field value : string) : M unit :=
  with_res (fun r =>
    {| statusCode := statusCode r;
       outHeaders :=
         Express.setHeader field
           (if String.eqb (JsString.toLowerCase field) "content-type"
            then Express.contentTypeValue value
            else value)
           (outHeaders r);
       sent := sent r;
       req := req r |}).

(** [res.json(obj)] for an object of string fields, at the statuses the
    handler gives it (400 and above), where the freshness test of the
    framework does not apply. *)
Definition res_json (obj : list (string * string)) : M unit :=
  with_res (fun r =>
    {| statusCode := statusCode r; outHeaders := outHeaders r;
       sent := Some (JsonBody obj); req := req r |}).

(** [res.send(Buffer.from(bytes))].  A fresh request is answered 304; an
    answer with status 204 or 304 loses its Content-Type, Content-Length and
    Transfer-Encoding and is sent with an empty body.  The handler has set
    Content-Type and ETag before its only call; the default type and the
    generated tag that the framework supplies when they are missing are
    among the headers outside the model. *)
Definition res_send (bytes : list Byte.byte) : M unit :=
  with_res (fun r =>
    let status := if req_fresh r then 304%Z else statusCode r in
    if (status =? 204)%Z || (status =? 304)%Z then
      {| statusCode := status;
         outHeaders :=
           Express.removeHeader "Transfer-Encoding"
             (Express.removeHeader "Content-Length"
                (Express.removeHeader "Content-Type" (outHeaders r)));
         sent := Some (BufferBody []);
         req := req r |}
    else
      {| statusCode := status; outHeaders := outHeaders r;
         sent := Some (BufferBody bytes); req := req r |}).

(** [console.log(line)] and [console.error(line)] *)
Definition console_log (line : string) : M unit :=
  fun st =>
    (Normal tt,
     {| draws := draws st; calls := calls st;
        console := console st ++ [line]; res := res st |}).

(** [setCacheHeaders(res, maxAge = 3600)] for an integer [maxAge], [None]
    standing for an omitted argument: one [res.set] with an object of two
    fields, which the framework sets in order; [true] is sent as its
    string. *)
Definition setCacheHeaders (maxAge : option Z) : M unit :=
  let maxAge := default 3600%Z maxAge in
  res_set "Cache-Control" ("public, max-age=" ++ JsString.ofZ maxAge) ;;
  res_set "ETag" "true".

(** [Math.floor(r * n)].  The program multiplies by 4 and by 256 only;
    a product with a power of two is exact in floating point, so the exact
    rational product has the same floor. *)
Definition floorMul (r : Random) (n : Z) : Z := Qfloor (rvalue r * inject_Z n).

(** ** The handler of [GET /proxy/image] *)

Definition userAgents : list string :=
  [ "Mozilla/5.0 (Windows NT 10.0; Win64; x64) AppleWebKit/537.36 (KHTML, like Gecko) Chrome/120.0.0.0 Safari/537.36";
    "Mozilla/5.0 (Macintosh; Intel Mac OS X 10_15_7) AppleWebKit/537.36 (KHTML, like Gecko) Chrome/120.0.0.0 Safari/537.36";
    "Mozilla/5.0 (X11; Linux x86_64) AppleWebKit/537.36 (KHTML, like Gecko) Chrome/120.0.0.0 Safari/537.36";
    "Mozilla/5.0 (iPhone; CPU iPhone OS 17_0 like Mac OS X) AppleWebKit/605.1.15 (KHTML, like Gecko) Version/17.0 Mobile/15E148 Safari/604.1" ].

(** A double quote, for the two header values that contain quotes. *)
Definition dq : string := String (Ascii.ascii_of_nat 34) EmptyString.

(** [headers], the header object of strategy 1. *)
Definition fullHeaders (randomUA : string) : gmap string string :=
  list_to_map
    [ ("User-Agent", randomUA);
      ("Accept", "image/avif,image/webp,image/apng,image/svg+xml,image/*,*/*;q=0.8");
      ("Accept-Language", "en-US,en;q=0.9");
      ("Accept-Encoding", "gzip, deflate, br");
      ("Cache-Control", "no-cache");
      ("Pragma", "no-cache");
      ("Sec-Fetch-Dest", "image");
      ("Sec-Fetch-Mode", "no-cors");
      ("Sec-Fetch-Site", "cross-site");
      ("Sec-Ch-Ua",
         dq ++ "Not_A Brand" ++ dq ++ ";v=" ++ dq ++ "8" ++ dq ++ ", " ++
         dq ++ "Chromium" ++ dq ++ ";v=" ++ dq ++ "120" ++ dq ++ ", " ++
         dq ++ "Google Chrome" ++ dq ++ ";v=" ++ dq ++ "120" ++ dq);
      ("Sec-Ch-Ua-Mobile", "?0");
      ("Sec-Ch-Ua-Platform", dq ++ "Windows" ++ dq);
      ("Referer", "https://www.threads.net/");
      ("Origin", "https://www.threads.net") ].

Definition minimalHeaders (randomUA : string) : gmap string string :=
  list_to_map
    [ ("User-Agent", randomUA);
      ("Accept", "image/*,*/*;q=0.8");
      ("Referer", "https://www.threads.net/") ].

Definition altHeaders (randomUA ip : string) : gmap string string :=
  list_to_map
    [ ("User-Agent", randomUA);
      ("Accept", "image/*,*/*;q=0.8");
      ("Referer", "https://instagram.com/");
      ("X-Forwarded-For", ip) ].

(** The [axios({...})] argument shared by the three strategies. *)
Definition getImage (target : QueryValue) (hs : gmap string string) : AxiosConfig :=
  {| method := "GET"; url := target; headers := hs;
     responseType := "arraybuffer"; timeout := 25000; maxRedirects := 5 |}.

(** [a || b] on an optional string: [b] when [a] is undefined or empty. *)
Definition or_default (a : option string) (b : string) : string :=
  match a with
  | Some s => if String.eqb s "" then b else s
  | None => b
  end.

(** [error.code === c] *)
Definition code_is (error : AxiosError) (c : string) : bool :=
  match code error with
  | Some c' => String.eqb c' c
  | None => false
  end.

(** [error.response?.status === n] *)
Definition response_status_is (error : AxiosError) (n : Z) : bool :=
  match response error with
  | Some r => (status r =? n)%Z
  | None => false
  end.

(** [Array.from({ length: n }, f)]: [f] is called once per index, in order. *)
Fixpoint arrayFrom {A} (n : nat) (f : M A) : M (list A) :=
  match n with
  | O => mret []
  | S n' => x ← f; xs ← arrayFrom n' f; mret (x :: xs)
  end.

Section Handler.

(** [new URL(s)]: [None] when the constructor throws. *)
Variable parseURL : string -> option URL.

(** The value the k-th call of [Math.random()] of the request returns. *)
Variable random : nat -> Random.

(** How the k-th [axios] call of the request settles for the
    configuration it is given. *)
Variable request : nat -> AxiosConfig -> AxiosResult.

Definition Math_random : M Random :=
  fun st =>
    (Normal (random (draws st)),
     {| draws := S (draws st); calls := calls st; console := console st;
        res := res st |}).

Definition axios (config : AxiosConfig) : M AxiosResponse :=
  fun st =>
    let st' := {| draws := draws st; calls := calls st ++ [config];
                  console := console st; res := res st |} in
    match request (length (calls st)) config with
    | inl r => (Normal r, st')
    | inr e => (Throw e, st')
    end.

Definition generateRandomIP : M string :=
  octets ← arrayFrom 4 (r ← Math_random; mret (floorMul r 256));
  mret (JsString.join "." (map JsString.ofZ octets)).

(** [userAgents[Math.floor(r * userAgents.length)]]; the index is within
    the array for every [r] (lemma [pickUserAgent_in_pool]), so the
    out-of-range value is never produced. *)
Definition pickUserAgent (r : Random) : string :=
  default "undefined"
    (userAgents !! Z.to_nat (floorMul r (Z.of_nat (length userAgents)))).

(** The [catch] block of the handler. *)
Definition respondError (error : AxiosError) : M unit :=
  console_log ("Proxy error: " ++ message error) ;;
  if code_is error "ENOTFOUND" || code_is error "ECONNREFUSED" then
    res_status 404 ;; res_json [("error", "Image not found")]
  else if response_status_is error 403 then
    res_status 403 ;; res_json [("error", "Access forbidden")]
  else if code_is error "ETIMEDOUT" then
    res_status 408 ;; res_json [("error", "Request timeout")]
  else
    res_status 500 ;; res_json [("error", "Failed to fetch image")].

(** The three strategies: the value of [response] after the nested
    [try]/[catch] statements, or the error thrown by the innermost. *)
Definition fetchWithStrategies (target : QueryValue) (randomUA : string)
  : M AxiosResponse :=
  try_catch
    (axios (getImage target (fullHeaders randomUA)))
    (fun error =>
       let lastError := error in
       console_log "Direct request failed, trying alternative methods..." ;;
       try_catch
         (axios (getImage target (minimalHeaders randomUA)))
         (fun error2 =>
            let lastError := error2 in
            try_catch
              (ip ← generateRandomIP;
               axios (getImage target (altHeaders randomUA ip)))
              (fun error3 =>
                 let lastError := error3 in
                 throw lastError))).

Definition proxyImage (target : QueryValue) : M unit :=
  try_catch
    (if negb (truthy target) then
       res_status 400 ;; res_json [("error", "URL parameter is required")]
     else if negb (isValidImageUrl parseURL target) then
       res_status 400 ;; res_json [("error", "Invalid image URL")]
     else
       r ← Math_random;
       let randomUA := pickUserAgent r in
       response ← fetchWithStrategies target randomUA;
       let contentType :=
         or_default (response_headers response !! "content-type") "image/jpeg" in
       setCacheHeaders (Some 86400%Z) ;;
       res_set "Content-Type" contentType ;;
       res_send (data response))
    respondError.

(** The state a request for [target] ends in, for a request without
    headers; [handleRequest] below takes the request as well. *)
Definition handle (target : QueryValue) : State :=
  snd (proxyImage target initialState).

End Handler.

(** The state in which the handler starts on the request [q], and the state
    it ends in; [handle] is the case of a request without headers. *)
Definition startFor (q : IncomingMessage) : State :=
  {| draws := 0; calls := []; console := []; res := responseTo q |}.

Definition handleRequest (parseURL : string -> option URL)
  (random : nat -> Random) (request : nat -> AxiosConfig -> AxiosResult)
  (q : IncomingMessage) (target : QueryValue) : State :=
  snd (proxyImage parseURL random request target (startFor q)).

(** The handler over a transport-level upstream, settled by the client
    library. *)
Definition viaAxios (upstream : nat -> AxiosConfig -> Axios.Outcome)
  : nat -> AxiosConfig -> AxiosResult :=
  fun k config => Axios.settle config (upstream k config).

(** Sample values of [Math.random()]: 0, 1/2 and 255/256. *)
Definition rnd_zero : Random := {| rvalue := 0; rvalue_range := eq_refl |}.
Definition rnd_half : Random := {| rvalue := 1 # 2; rvalue_range := eq_refl |}.
Definition rnd_high : Random := {| rvalue := 255 # 256; rvalue_range := eq_refl |}.

Definition sampleRandom (k : nat) : Random :=
  match k with
  | 0 => rnd_half
  | 1 => rnd_zero
  | 2 => rnd_high
  | _ => rnd_half
  end.

(** ** The attempts of a request, as the handler builds them *)

Section Attempts.

Variable random : nat -> Random.
Variable target : QueryValue.

(** [randomUA]: chosen with the first random value of the request. *)
Definition chosenUA : string := pickUserAgent (random 0).

(** The value of [generateRandomIP()] in strategy 3, which consumes the
    second to fifth random values. *)
Definition syntheticIP : string :=
  JsString.join "."
    (map JsString.ofZ
       [ floorMul (random 1) 256; floorMul (random 2) 256;
         floorMul (random 3) 256; floorMul (random 4) 256 ]).

Definition attempt1 : AxiosConfig := getImage target (fullHeaders chosenUA).
Definition attempt2 : AxiosConfig := getImage target (minimalHeaders chosenUA).
Definition attempt3 : AxiosConfig :=
  getImage target (altHeaders chosenUA syntheticIP).

End Attempts.

(** The Content-Type of the success path for an upstream response [r]. *)
Definition relayedContentType (r : AxiosResponse) : string :=
  Express.contentTypeValue
    (or_default (response_headers r !! "content-type") "image/jpeg").

(** The response of the success path for an upstream response [r], to a
    request that is not fresh. *)
Definition relayedTo (q : IncomingMessage) (r : AxiosResponse)
  : ServerResponse :=
  {| statusCode := 200;
     outHeaders :=
       <["Content-Type" := relayedContentType r]>
         (<["ETag" := "true"]>
            (<["Cache-Control" := "public, max-age=86400"]> ∅));
     sent := Some (BufferBody (data r));
     req := q |}.

(** The answer of the success path to a fresh request. *)
Definition notModifiedTo (q : IncomingMessage) : ServerResponse :=
  {| statusCode := 304;
     outHeaders :=
       <["ETag" := "true"]> (<["Cache-Control" := "public, max-age=86400"]> ∅);
     sent := Some (BufferBody []);
     req := q |}.

(** The response of the success path to a request without headers. *)
Definition successResponse (r : AxiosResponse) : ServerResponse :=
  relayedTo plainRequest r.

Definition jsonResponse (n : Z) (msg : string) : ServerResponse :=
  {| statusCode := n; outHeaders := ∅;
     sent := Some (JsonBody [("error", msg)]); req := plainRequest |}.

Definition firstFailureLine : string :=
  "Direct request failed, trying alternative methods...".

(** ** Intermediate states and the handler as a decision tree *)

(** The state after [randomUA] has been chosen. *)
Definition afterPick : State :=
  {| draws := 1; calls := []; console := []; res := freshResponse |}.

Definition answered (st : State) (line : string) (r : ServerResponse) : State :=
  {| draws := draws st; calls := calls st; console := console st ++ [line];
     res := r |}.

(** The part of the [try] block that follows the strategies. *)
Definition deliver (response : AxiosResponse) : M unit :=
  setCacheHeaders (Some 86400%Z) ;;
  res_set "Content-Type"
    (or_default (response_headers response !! "content-type") "image/jpeg") ;;
  res_send (data response).

(** The handler on an accepted target, as a decision tree over the
    answers of the oracle. *)
Definition validRun (random : nat -> Random)
  (request : nat -> AxiosConfig -> AxiosResult) (target : QueryValue)
  : Completion unit * State :=
  let c1 := attempt1 random target in
  let c2 := attempt2 random target in
  let c3 := attempt3 random target in
  match request 0 c1 with
  | inl r =>
      (Normal tt,
       {| draws := 1; calls := [c1]; console := [];
          res := successResponse r |})
  | inr e1 =>
      match request 1 c2 with
      | inl r =>
          (Normal tt,
           {| draws := 1; calls := [c1; c2]; console := [firstFailureLine];
              res := successResponse r |})
      | inr e2 =>
          match request 2 c3 with
          | inl r =>
              (Normal tt,
               {| draws := 5; calls := [c1; c2; c3];
                  console := [firstFailureLine];
                  res := successResponse r |})
          | inr e3 =>
              respondError e3
                {| draws := 5; calls := [c1; c2; c3];
                   console := [firstFailureLine]; res := freshResponse |}
          end
      end
  end.

(** The same for a request [q] with headers. *)
Definition afterPickTo (q : IncomingMessage) : State :=
  {| draws := 1; calls := []; console := []; res := responseTo q |}.

(** What the end of the [try] block leaves for a fetched response [r]: 304
    for a request that is fresh against the tag "true", [r] relayed
    otherwise. *)
Definition delivered (q : IncomingMessage) (r : AxiosResponse)
  : ServerResponse :=
  if Express.fresh q (Some "true") None then notModifiedTo q
  else relayedTo q r.

Definition runFor (q : IncomingMessage) (random : nat -> Random)
  (request : nat -> AxiosConfig -> AxiosResult) (target : QueryValue)
  : Completion unit * State :=
  let c1 := attempt1 random target in
  let c2 := attempt2 random target in
  let c3 := attempt3 random target in
  match request 0 c1 with
  | inl r =>
      (Normal tt,
       {| draws := 1; calls := [c1]; console := []; res := delivered q r |})
  | inr e1 =>
      match request 1 c2 with
      | inl r =>
          (Normal tt,
           {| draws := 1; calls := [c1; c2]; console := [firstFailureLine];
              res := delivered q r |})
      | inr e2 =>
          match request 2 c3 with
          | inl r =>
              (Normal tt,
               {| draws := 5; calls := [c1; c2; c3];
                  console := [firstFailureLine];
                  res := delivered q r |})
          | inr e3 =>
              respondError e3
                {| draws := 5; calls := [c1; c2; c3];
                   console := [firstFailureLine]; res := responseTo q |}
          end
      end
  end.

(** The response [r] as an answer to the request [q]. *)
Definition withReq (q : IncomingMessage) (r : ServerResponse) : ServerResponse :=
  {| statusCode := statusCode r; outHeaders := outHeaders r; sent := sent r;
     req := q |}.

(** ** Vocabulary of the statements *)

(** The k-th call of the request, made with [config], is rejected. *)
Definition failed (request : nat -> AxiosConfig -> AxiosResult)
  (k : nat) (config : AxiosConfig) : Prop :=
  exists e, request k config = inr e.

(** Some strategy fetches [r]: the first that is not rejected. *)
Definition fetched (random : nat -> Random)
  (request : nat -> AxiosConfig -> AxiosResult)
  (target : QueryValue) (r : AxiosResponse) : Prop :=
  request 0 (attempt1 random target) = inl r \/
  (failed request 0 (attempt1 random target) /\
   request 1 (attempt2 random target) = inl r) \/
  (failed request 0 (attempt1 random target) /\
   failed request 1 (attempt2 random target) /\
   request 2 (attempt3 random target) = inl r).

(** No entry of the allow-list occurs in [host] or ends it. *)
Definition matchesNoDomain (host : string) : Prop :=
  forall d, In d validDomains ->
    JsString.includes host d = false /\ JsString.endsWith host d = false.

(** The rejection the specification describes for an input string: the
    validator says no, the answer is 400 "Invalid image URL", and nothing is
    fetched. *)
Definition rejectedAsInvalid (parseURL : string -> option URL)
  (random : nat -> Random) (request : nat -> AxiosConfig -> AxiosResult)
  (s : string) : Prop :=
  isValidImageUrl parseURL (QString s) = false /\
  res (handle parseURL random request (QString s)) =
    jsonResponse 400 "Invalid image URL" /\
  calls (handle parseURL random request (QString s)) = [].

(** The input does not parse, or parses to a host outside the allow-list. *)
Definition unacceptable (parseURL : string -> option URL) (s : string) : Prop :=
  parseURL s = None \/
  exists u, parseURL s = Some u /\ matchesNoDomain (hostname u).

(** Relaying as the specification words it: status 200, the content type
    the upstream declared (image/jpeg when it declared none), public caching
    for 86400 seconds, and the upstream bytes as the body. *)
Definition relayedAsDeclared (out : ServerResponse) (r : AxiosResponse) : Prop :=
  statusCode out = 200%Z /\
  outHeaders out !! "Content-Type" =
    Some (or_default (response_headers r !! "content-type") "image/jpeg") /\
  outHeaders out !! "Cache-Control" = Some "public, max-age=86400" /\
  sent out = Some (BufferBody (data r)).

(** ** Sample upstreams *)

Definition sampleTarget : QueryValue :=
  QString "https://scontent.cdninstagram.com/foo.jpg".

(** Every attempt is refused by the upstream host. *)
Definition upstreamRefusing (k : nat) (config : AxiosConfig) : Axios.Outcome :=
  Axios.SystemError "ECONNREFUSED" "connect ECONNREFUSED".

(** Every attempt runs into the timeout of the request. *)
Definition upstreamSilent (k : nat) (config : AxiosConfig) : Axios.Outcome :=
  Axios.TimeoutElapsed.

(** The first two attempts get 403, the third gets a two-byte WebP body. *)
Definition upstreamThirdTime (k : nat) (config : AxiosConfig) : Axios.Outcome :=
  if (k <? 2)%nat then Axios.Responded 403 ∅ []
  else Axios.Responded 200 {["content-type" := "image/webp"]}
         [Byte.xff; Byte.xd8].

(** The first attempt is answered at once. *)
Definition upstreamWilling (k : nat) (config : AxiosConfig) : Axios.Outcome :=
  Axios.Responded 200 {["content-type" := "image/png"]} [Byte.x89].

(** The first attempt is answered with a page of text. *)
Definition upstreamHtml (k : nat) (config : AxiosConfig) : Axios.Outcome :=
  Axios.Responded 200 {["content-type" := "text/html"]} [Byte.x3c; Byte.x70; Byte.x3e].

(** A request that revalidates with the tag of an earlier answer. *)
Definition revalidatingRequest : IncomingMessage :=
  {| reqHeaders := {["if-none-match" := "true"]};
     notModifiedSince := fun _ => false |}.

(** A conditional request with a tag no answer of the handler carries. *)
Definition staleRequest : IncomingMessage :=
  {| reqHeaders := {["if-none-match" := "W/abc"]};
     notModifiedSince := fun _ => false |}.

(** Strategies 1 and 2 are refused, strategy 3 gets a 403. *)
Definition upstreamRefusedThenForbidden (k : nat) (config : AxiosConfig)
  : Axios.Outcome :=
  if (k <? 2)%nat then Axios.SystemError "ECONNREFUSED" "connect ECONNREFUSED"
  else Axios.Responded 403 ∅ [].

(** ** Vocabulary and samples of the further properties *)

(** The answers of the failure paths: status and [error] text. *)
Definition errorAnswers : list (Z * string) :=
  [ (400, "URL parameter is required");
    (400, "Invalid image URL");
    (404, "Image not found");
    (403, "Access forbidden");
    (408, "Request timeout");
    (500, "Failed to fetch image") ]%Z.

Definition isOctet (z : Z) : Prop := (0 <= z <= 255)%Z.

(** [a.b.c.d] in decimal. *)
Definition dottedQuad (a b c d : Z) : string :=
  JsString.join "." (map JsString.ofZ [a; b; c; d]).

(** What every [axios] call of the handler has in common. *)
Definition fetchesTarget (target : QueryValue) (config : AxiosConfig) : Prop :=
  method config = "GET" /\ url config = target /\
  responseType config = "arraybuffer" /\
  timeout config = 25000%Z /\ maxRedirects config = 5%Z.

(** The allow-list without the two entries that contain another entry. *)
Definition coreDomains : list string :=
  [ "instagram.com"; "threads.net"; "fbcdn.net" ].

(** [sampleParse] with two more inputs: a URL without an authority, whose
    host is empty, and a URL whose host is an allow-list entry itself. *)
Definition sampleParseMore (s : string) : option URL :=
  if String.eqb s "mailto:someone@instagram.com"
  then Some {| hostname := "" |}
  else if String.eqb s "https://instagram.com/p/abc"
  then Some {| hostname := "instagram.com" |}
  else sampleParse s.

(** [cacheDirective n]: the [Cache-Control] value [setCacheHeaders] writes. *)
Definition cacheDirective (maxAge : Z) : string :=
  "public, max-age=" ++ JsString.ofZ maxAge.

(** * Properties *)

(** ** String lemmas *)

Example includes_mid : JsString.includes "cdninstagram.com" "instagram.com" = true.
Proof. reflexivity. Qed.
Example endsWith_no : JsString.endsWith "instagram.com.attacker.net" "instagram.com" = false.
Proof. reflexivity. Qed.
Example ofZ_86400 : JsString.ofZ 86400 = "86400".
Proof. reflexivity. Qed.

Lemma startsWith_substring s d :
  JsString.startsWith s d = true <->
  String.substring 0 (String.length d) s = d.
Proof. unfold JsString.startsWith. apply String.prefix_correct. Qed.

Lemma includes_here s d :
  JsString.startsWith s d = true -> JsString.includes s d = true.
Proof. intros H. destruct s; cbn [JsString.includes]; rewrite H; reflexivity. Qed.

Lemma includes_later c s d :
  JsString.includes s d = true -> JsString.includes (String c s) d = true.
Proof. intros H. cbn [JsString.includes]. rewrite H. apply orb_true_r. Qed.

(** A suffix is in particular an occurrence. *)
Lemma endsWith_includes s d :
  JsString.endsWith s d = true -> JsString.includes s d = true.
Proof.
  induction s as [|c s IH]; unfold JsString.endsWith; intros H.
  - destruct (String.length "" <? String.length d)%nat eqn:E; [discriminate|].
    apply String.eqb_eq in H. apply includes_here, startsWith_substring.
    apply Nat.ltb_ge in E. cbn [String.length] in E, H.
    replace (0 - String.length d)%nat with 0%nat in H by lia. exact H.
  - destruct (String.length (String c s) <? String.length d)%nat eqn:E;
      [discriminate|].
    apply Nat.ltb_ge in E. apply String.eqb_eq in H.
    cbn [String.length] in E, H.
    destruct (decide (String.length d = S (String.length s))) as [Hd|Hd].
    + apply includes_here, startsWith_substring.
      rewrite Hd in H |- *. rewrite Nat.sub_diag in H. exact H.
    + apply includes_later, IH. unfold JsString.endsWith.
      assert (Hle : (String.length d <= String.length s)%nat) by lia.
      apply Nat.ltb_ge in Hle. rewrite Hle. apply String.eqb_eq.
      apply Nat.ltb_ge in Hle.
      replace (S (String.length s) - String.length d)%nat
        with (S (String.length s - String.length d)) in H by lia.
      exact H.
Qed.

Lemma includes_or_endsWith s d :
  JsString.includes s d || JsString.endsWith s d = JsString.includes s d.
Proof.
  destruct (JsString.endsWith s d) eqn:E.
  - rewrite (endsWith_includes _ _ E). reflexivity.
  - apply orb_false_r.
Qed.

(** ** The random index *)

Lemma Random_bounds (r : Random) : (0 <= rvalue r)%Q /\ (rvalue r < 1)%Q.
Proof.
  destruct r as [q Hq]; cbn [rvalue].
  apply andb_prop in Hq as [H0 H1]. split.
  - apply Qle_bool_iff, H0.
  - apply Qnot_le_lt. intros Hle. apply Qle_bool_iff in Hle.
    rewrite Hle in H1. discriminate.
Qed.

Lemma floorMul_range (r : Random) (n : Z) :
  (0 < n)%Z -> (0 <= floorMul r n < n)%Z.
Proof.
  intros Hn. destruct (Random_bounds r) as [H0 H1]. unfold floorMul.
  assert (Hn' : (0 < inject_Z n)%Q) by (unfold Qlt; cbn; lia).
  split.
  - change 0%Z with (Qfloor 0). apply Qfloor_resp_le.
    apply Qmult_le_0_compat; [exact H0 | apply Qlt_le_weak, Hn'].
  - rewrite Zlt_Qlt. eapply Qle_lt_trans; [apply Qfloor_le|].
    apply Qlt_le_trans with (1 * inject_Z n)%Q.
    + apply Qmult_lt_compat_r; assumption.
    + rewrite Qmult_1_l. apply Qle_refl.
Qed.

Lemma pickUserAgent_in_pool (r : Random) :
  exists i, (i < length userAgents)%nat /\ userAgents !! i = Some (pickUserAgent r).
Proof.
  unfold pickUserAgent.
  set (i := Z.to_nat (floorMul r (Z.of_nat (length userAgents)))).
  assert (Hi : (i < length userAgents)%nat).
  { pose proof (floorMul_range r (Z.of_nat (length userAgents))) as H.
    subst i. cbn [length userAgents] in *. lia. }
  exists i. split; [exact Hi|].
  destruct (lookup_lt_is_Some_2 userAgents i Hi) as [ua Hua].
  rewrite Hua. reflexivity.
Qed.

(** ** Running the handler *)

(** Unfolds the monad and the operations on the state, leaving the header
    tables, the random values and the oracle's answers as they are. *)
Ltac js_run :=
  cbv beta iota zeta delta
    [fetchWithStrategies generateRandomIP arrayFrom
     Math_random axios try_catch throw bind ret mbind mret M_bind M_ret
     with_res res_status res_set res_json res_send console_log setCacheHeaders
     draws calls console res statusCode outHeaders sent length app].

Section Runs.

Variable parseURL : string -> option URL.
Variable random : nat -> Random.
Variable request : nat -> AxiosConfig -> AxiosResult.
Variable target : QueryValue.

Abbreviation c1 := (attempt1 random target).
Abbreviation c2 := (attempt2 random target).
Abbreviation c3 := (attempt3 random target).
Abbreviation strategies :=
  (fetchWithStrategies random request target (chosenUA random)).

Lemma strategies_first r :
  request 0 c1 = inl r ->
  strategies afterPick =
  (Normal r,
   {| draws := 1; calls := [c1]; console := []; res := freshResponse |}).
Proof.
  intros H1. js_run. cbv delta [afterPick]. cbv beta iota.
  change (getImage target (fullHeaders (chosenUA random))) with c1.
  rewrite H1. reflexivity.
Qed.

Lemma strategies_second e1 r :
  request 0 c1 = inr e1 -> request 1 c2 = inl r ->
  strategies afterPick =
  (Normal r,
   {| draws := 1; calls := [c1; c2]; console := [firstFailureLine];
      res := freshResponse |}).
Proof.
  intros H1 H2. js_run. cbv delta [afterPick]. cbv beta iota.
  change (getImage target (fullHeaders (chosenUA random))) with c1.
  rewrite H1. js_run.
  change (getImage target (minimalHeaders (chosenUA random))) with c2.
  rewrite H2. reflexivity.
Qed.

Lemma strategies_third e1 e2 r :
  request 0 c1 = inr e1 -> request 1 c2 = inr e2 -> request 2 c3 = inl r ->
  strategies afterPick =
  (Normal r,
   {| draws := 5; calls := [c1; c2; c3]; console := [firstFailureLine];
      res := freshResponse |}).
Proof.
  intros H1 H2 H3. js_run. cbv delta [afterPick]. cbv beta iota.
  change (getImage target (fullHeaders (chosenUA random))) with c1.
  rewrite H1. js_run.
  change (getImage target (minimalHeaders (chosenUA random))) with c2.
  rewrite H2. js_run.
  change (getImage target (altHeaders _ _)) with c3.
  rewrite H3. reflexivity.
Qed.

Lemma strategies_exhausted e1 e2 e3 :
  request 0 c1 = inr e1 -> request 1 c2 = inr e2 -> request 2 c3 = inr e3 ->
  strategies afterPick =
  (Throw e3,
   {| draws := 5; calls := [c1; c2; c3]; console := [firstFailureLine];
      res := freshResponse |}).
Proof.
  intros H1 H2 H3. js_run. cbv delta [afterPick]. cbv beta iota.
  change (getImage target (fullHeaders (chosenUA random))) with c1.
  rewrite H1. js_run.
  change (getImage target (minimalHeaders (chosenUA random))) with c2.
  rewrite H2. js_run.
  change (getImage target (altHeaders _ _)) with c3.
  rewrite H3. reflexivity.
Qed.

(** The [catch] block answers every error, with one of four responses. *)
Lemma respondError_run error st :
  respondError error st =
  (Normal tt,
   answered st ("Proxy error: " ++ message error)
     {| statusCode :=
          if code_is error "ENOTFOUND" || code_is error "ECONNREFUSED" then 404
          else if response_status_is error 403 then 403
          else if code_is error "ETIMEDOUT" then 408
          else 500;
        outHeaders := outHeaders (res st);
        req := req (res st);
        sent :=
          Some (JsonBody
            [("error",
              if code_is error "ENOTFOUND" || code_is error "ECONNREFUSED"
              then "Image not found"
              else if response_status_is error 403 then "Access forbidden"
              else if code_is error "ETIMEDOUT" then "Request timeout"
              else "Failed to fetch image")]) |}).
Proof.
  unfold respondError.
  destruct (code_is error "ENOTFOUND" || code_is error "ECONNREFUSED");
    [reflexivity|].
  destruct (response_status_is error 403); [reflexivity|].
  destruct (code_is error "ETIMEDOUT"); reflexivity.
Qed.

Lemma deliver_run response n cs ls :
  deliver response
    {| draws := n; calls := cs; console := ls; res := freshResponse |} =
  (Normal tt,
   {| draws := n; calls := cs; console := ls;
      res := successResponse response |}).
Proof. reflexivity. Qed.

Lemma proxyImage_missing :
  truthy target = false ->
  proxyImage parseURL random request target initialState =
  (Normal tt,
   {| draws := 0; calls := []; console := [];
      res := jsonResponse 400 "URL parameter is required" |}).
Proof. intros Ht. unfold proxyImage. rewrite Ht. reflexivity. Qed.

Lemma proxyImage_invalid :
  truthy target = true ->
  isValidImageUrl parseURL target = false ->
  proxyImage parseURL random request target initialState =
  (Normal tt,
   {| draws := 0; calls := []; console := [];
      res := jsonResponse 400 "Invalid image URL" |}).
Proof. intros Ht Hv. unfold proxyImage. rewrite Ht, Hv. reflexivity. Qed.

Lemma proxyImage_valid :
  truthy target = true ->
  isValidImageUrl parseURL target = true ->
  proxyImage parseURL random request target initialState =
  try_catch (response ← strategies; deliver response) (respondError)
    afterPick.
Proof. intros Ht Hv. unfold proxyImage. rewrite Ht, Hv. reflexivity. Qed.

Lemma proxyImage_validRun :
  truthy target = true ->
  isValidImageUrl parseURL target = true ->
  proxyImage parseURL random request target initialState =
  validRun random request target.
Proof.
  intros Ht Hv. rewrite (proxyImage_valid Ht Hv). unfold validRun. cbv zeta.
  unfold try_catch at 1. unfold mbind, M_bind, bind at 1.
  destruct (request 0 c1) as [r|e1] eqn:H1.
  { rewrite (strategies_first _ H1). apply deliver_run. }
  destruct (request 1 c2) as [r|e2] eqn:H2.
  { rewrite (strategies_second _ _ H1 H2). apply deliver_run. }
  destruct (request 2 c3) as [r|e3] eqn:H3.
  { rewrite (strategies_third _ _ _ H1 H2 H3). apply deliver_run. }
  rewrite (strategies_exhausted _ _ _ H1 H2 H3). reflexivity.
Qed.

End Runs.

(** ** The validator *)

Example cdn_subdomain_accepted :
  isValidImageUrl sampleParse
    (QString "https://scontent-iad3-1.cdninstagram.com/a.jpg") = true.
Proof. reflexivity. Qed.

Example lookalike_host_accepted :
  isValidImageUrl sampleParse (QString "https://evilinstagram.com/x.jpg") = true.
Proof. reflexivity. Qed.

Example unparsable_rejected :
  isValidImageUrl sampleParse (QString "not a url") = false.
Proof. reflexivity. Qed.

Lemma isValidImageUrl_parsed parseURL target u :
  parseURL (toString target) = Some u ->
  isValidImageUrl parseURL target =
  existsb (fun d => JsString.includes (hostname u) d ||
                    JsString.endsWith (hostname u) d) validDomains.
Proof. intros H. unfold isValidImageUrl. rewrite H. reflexivity. Qed.

Lemma isValidImageUrl_unparsed parseURL target :
  parseURL (toString target) = None ->
  isValidImageUrl parseURL target = false.
Proof. intros H. unfold isValidImageUrl. rewrite H. reflexivity. Qed.

Lemma matchesNoDomain_existsb host :
  matchesNoDomain host ->
  existsb (fun d => JsString.includes host d || JsString.endsWith host d)
          validDomains = false.
Proof.
  intros H. apply not_true_is_false. intros Hex.
  apply existsb_exists in Hex as (d & Hd & Hm).
  destruct (H d Hd) as [Hi He]. rewrite Hi, He in Hm. discriminate.
Qed.

Lemma unacceptable_invalid parseURL s :
  unacceptable parseURL s -> isValidImageUrl parseURL (QString s) = false.
Proof.
  intros [Hnone | (u & Hu & Hno)].
  - apply isValidImageUrl_unparsed, Hnone.
  - rewrite (isValidImageUrl_parsed parseURL (QString s) u Hu).
    apply matchesNoDomain_existsb, Hno.
Qed.

(** C8. For every string that parses as a URL, the validator answers true
    exactly when the host contains or ends with one of the five allow-list
    entries; a host that merely contains an entry, such as
    instagram.com.attacker.net, is therefore accepted. *)
Theorem validator_accepts_iff_host_matches
  (parseURL : string -> option URL) (s : string) (u : URL) :
  parseURL s = Some u ->
  validDomains =
    [ "scontent.cdninstagram.com"; "instagram.com"; "threads.net";
      "fbcdn.net"; "scontent.xx.fbcdn.net" ] /\
  (isValidImageUrl parseURL (QString s) = true <->
   exists d, In d validDomains /\
     (JsString.includes (hostname u) d = true \/
      JsString.endsWith (hostname u) d = true)) /\
  (hostname u = "instagram.com.attacker.net" ->
   isValidImageUrl parseURL (QString s) = true).
Proof.
  intros Hu. split; [reflexivity|].
  rewrite (isValidImageUrl_parsed parseURL (QString s) u Hu). split.
  - rewrite existsb_exists. split.
    + intros (d & Hd & Hm). exists d. split; [exact Hd|].
      apply orb_true_iff, Hm.
    + intros (d & Hd & Hm). exists d. split; [exact Hd|].
      apply orb_true_iff, Hm.
  - intros Hh. rewrite Hh. reflexivity.
Qed.

Lemma validator_accepts_iff_host_matches_witness :
  sampleParse "https://instagram.com.attacker.net/x.jpg" =
    Some {| hostname := "instagram.com.attacker.net" |} /\
  isValidImageUrl sampleParse
    (QString "https://instagram.com.attacker.net/x.jpg") = true.
Proof.
  split; [reflexivity|].
  apply (validator_accepts_iff_host_matches sampleParse
           "https://instagram.com.attacker.net/x.jpg"
           {| hostname := "instagram.com.attacker.net" |});
    reflexivity.
Defined.

(** C10. Deleting the [endsWith] disjunct does not change the validator:
    a host that ends with an entry also contains it. *)
Theorem endsWith_clause_redundant
  (parseURL : string -> option URL) (target : QueryValue) :
  isValidImageUrl parseURL target =
  isValidImageUrl_includes_only parseURL target.
Proof.
  unfold isValidImageUrl, isValidImageUrl_includes_only.
  destruct (parseURL (toString target)) as [u|]; [|reflexivity].
  induction validDomains as [|d ds IH]; [reflexivity|].
  cbn [existsb]. rewrite includes_or_endsWith, IH. reflexivity.
Qed.

(** ** Requests that are turned away *)

Lemma truthy_QString s : truthy (QString s) = true <-> s <> "".
Proof.
  cbn [truthy]. rewrite negb_true_iff. split.
  - intros H Hs. subst s. discriminate.
  - intros H. apply String.eqb_neq, H.
Qed.

(** C9. An empty [url] parameter is answered like an absent one, with
    400 "URL parameter is required"; the answer is the same whatever the
    URL parser, the random source and the network would do, and no network
    call is made. *)
Theorem empty_url_treated_as_missing
  (parseURL parseURL' : string -> option URL)
  (random random' : nat -> Random)
  (request request' : nat -> AxiosConfig -> AxiosResult) :
  handle parseURL random request (QString "") =
    handle parseURL' random' request' QUndefined /\
  res (handle parseURL random request (QString "")) =
    jsonResponse 400 "URL parameter is required" /\
  calls (handle parseURL random request (QString "")) = [] /\
  draws (handle parseURL random request (QString "")) = 0%nat.
Proof. repeat split. Qed.

(** C2, as stated, fails at the empty string: it does not parse, yet the
    answer is the one for a missing parameter. *)
Lemma empty_string_not_rejected_as_invalid :
  unacceptable sampleParse "" /\
  ~ rejectedAsInvalid sampleParse sampleRandom (viaAxios upstreamWilling) "".
Proof.
  split.
  - left. reflexivity.
  - intros (_ & Hres & _). discriminate Hres.
Qed.

(** C2, amended. For every non-empty input string that does not parse or
    whose host matches no allow-list entry, the validator answers false, the
    response is 400 "Invalid image URL", and no network call is made. *)
Theorem nonempty_unacceptable_rejected
  (parseURL : string -> option URL) (random : nat -> Random)
  (request : nat -> AxiosConfig -> AxiosResult) (s : string) :
  s <> "" ->
  unacceptable parseURL s ->
  rejectedAsInvalid parseURL random request s.
Proof.
  intros Hs Hbad. pose proof (unacceptable_invalid parseURL s Hbad) as Hv.
  apply truthy_QString in Hs. unfold rejectedAsInvalid, handle.
  rewrite (proxyImage_invalid parseURL random request (QString s) Hs Hv).
  repeat split. exact Hv.
Qed.

Lemma nonempty_unacceptable_rejected_witness :
  rejectedAsInvalid sampleParse sampleRandom (viaAxios upstreamWilling)
    "https://evil.example.com/x.jpg".
Proof.
  apply nonempty_unacceptable_rejected.
  - discriminate.
  - right. exists {| hostname := "evil.example.com" |}.
    split; [reflexivity|].
    intros d Hd. cbn in Hd.
    repeat (destruct Hd as [<-|Hd]; [split; reflexivity|]). destruct Hd.
Defined.

(** ** Accepted requests *)

Lemma handle_validRun parseURL random request target :
  truthy target = true ->
  isValidImageUrl parseURL target = true ->
  handle parseURL random request target = snd (validRun random request target).
Proof.
  intros Ht Hv. unfold handle.
  rewrite (proxyImage_validRun parseURL random request target Ht Hv).
  reflexivity.
Qed.

Lemma handle_fetched parseURL random request target r :
  truthy target = true ->
  isValidImageUrl parseURL target = true ->
  fetched random request target r ->
  res (handle parseURL random request target) = successResponse r.
Proof.
  intros Ht Hv Hf. rewrite (handle_validRun parseURL random request target Ht Hv).
  unfold validRun.
  destruct Hf as [H1 | [([e1 H1] & H2) | ([e1 H1] & [e2 H2] & H3)]].
  - rewrite H1. reflexivity.
  - rewrite H1, H2. reflexivity.
  - rewrite H1, H2, H3. reflexivity.
Qed.

Lemma handle_exhausted parseURL random request target e1 e2 e3 :
  truthy target = true ->
  isValidImageUrl parseURL target = true ->
  request 0 (attempt1 random target) = inr e1 ->
  request 1 (attempt2 random target) = inr e2 ->
  request 2 (attempt3 random target) = inr e3 ->
  proxyImage parseURL random request target initialState =
  respondError e3
    {| draws := 5;
       calls := [attempt1 random target; attempt2 random target;
                 attempt3 random target];
       console := [firstFailureLine];
       res := freshResponse |}.
Proof.
  intros Ht Hv H1 H2 H3.
  rewrite (proxyImage_validRun parseURL random request target Ht Hv).
  unfold validRun. rewrite H1, H2, H3. reflexivity.
Qed.

(** ** The order of the strategies *)

Lemma respondError_keeps_calls error st :
  calls (snd (respondError error st)) = calls st.
Proof. rewrite respondError_run. reflexivity. Qed.

(** C3. On an accepted request the network calls are an initial segment of
    strategy 1, strategy 2, strategy 3; strategy 1 is always tried; a second
    call is made exactly when the first was rejected and a third exactly when
    the second was made and rejected; when strategy 1 is answered it is the
    only call. *)
Theorem strategies_attempted_in_order
  (parseURL : string -> option URL) (random : nat -> Random)
  (request : nat -> AxiosConfig -> AxiosResult) (target : QueryValue) :
  truthy target = true ->
  isValidImageUrl parseURL target = true ->
  let trace := calls (handle parseURL random request target) in
  let c1 := attempt1 random target in
  let c2 := attempt2 random target in
  let c3 := attempt3 random target in
  trace `prefix_of` [c1; c2; c3] /\
  (1 <= length trace)%nat /\
  ((2 <= length trace)%nat <-> failed request 0 c1) /\
  ((3 <= length trace)%nat <->
     (2 <= length trace)%nat /\ failed request 1 c2) /\
  (forall r, request 0 c1 = inl r -> trace = [c1]).
Proof.
  intros Ht Hv trace c1 c2 c3. subst trace.
  rewrite (handle_validRun parseURL random request target Ht Hv).
  unfold validRun. fold c1 c2 c3.
  destruct (request 0 c1) as [r1|e1] eqn:H1.
  { cbn [snd calls length]. split_and!.
    - exists [c2; c3]. reflexivity.
    - lia.
    - split; [lia | intros [e He]; congruence].
    - split; [lia | intros [? _]; lia].
    - reflexivity. }
  destruct (request 1 c2) as [r2|e2] eqn:H2.
  { cbn [snd calls length]. split_and!.
    - exists [c3]. reflexivity.
    - lia.
    - split; [intros _; exists e1; exact H1 | lia].
    - split; [lia | intros [_ [e He]]; congruence].
    - intros r Hr. congruence. }
  assert (Hcalls :
    calls (snd (match request 2 c3 with
                | inl r =>
                    (Normal tt,
                     {| draws := 5; calls := [c1; c2; c3];
                        console := [firstFailureLine];
                        res := successResponse r |})
                | inr e3 =>
                    respondError e3
                      {| draws := 5; calls := [c1; c2; c3];
                         console := [firstFailureLine];
                         res := freshResponse |}
                end)) = [c1; c2; c3]).
  { destruct (request 2 c3); [reflexivity | apply respondError_keeps_calls]. }
  rewrite Hcalls. cbn [length]. split_and!.
  - reflexivity.
  - lia.
  - split; [intros _; exists e1; exact H1 | lia].
  - split; [intros _; split; [lia | exists e2; exact H2] | lia].
  - intros r Hr. congruence.
Qed.

Lemma strategies_attempted_in_order_witness :
  calls (handle sampleParse sampleRandom (viaAxios upstreamWilling)
           sampleTarget) =
    [attempt1 sampleRandom sampleTarget] /\
  length (calls (handle sampleParse sampleRandom (viaAxios upstreamThirdTime)
                   sampleTarget)) = 3%nat.
Proof.
  split.
  - destruct (strategies_attempted_in_order sampleParse sampleRandom
                (viaAxios upstreamWilling) sampleTarget eq_refl eq_refl)
      as (_ & _ & _ & _ & Hone).
    exact (Hone _ eq_refl).
  - destruct (strategies_attempted_in_order sampleParse sampleRandom
                (viaAxios upstreamThirdTime) sampleTarget eq_refl eq_refl)
      as ([rest Hpre] & _ & _ & H3 & _).
    apply (f_equal length) in Hpre. rewrite length_app in Hpre.
    cbn [length] in Hpre.
    assert (H : (3 <= length (calls (handle sampleParse sampleRandom
                   (viaAxios upstreamThirdTime) sampleTarget)))%nat).
    { reflexivity. }
    lia.
Defined.

(** ** Exhausted requests *)

Lemma code_is_true error c : code_is error c = true <-> code error = Some c.
Proof.
  unfold code_is. destruct (code error) as [c'|].
  - rewrite String.eqb_eq. split; congruence.
  - split; discriminate.
Qed.

Lemma code_is_false error c : code_is error c = false <-> code error <> Some c.
Proof.
  rewrite <- code_is_true. destruct (code_is error c); split; congruence.
Qed.

Lemma response_status_is_true error n :
  response_status_is error n = true <->
  exists r, response error = Some r /\ status r = n.
Proof.
  unfold response_status_is. destruct (response error) as [r|].
  - rewrite Z.eqb_eq. split.
    + intros H. exists r. split; [reflexivity | exact H].
    + intros (r' & Hr & Hs). congruence.
  - split; [discriminate | intros (r & Hr & _); discriminate].
Qed.

(** The handler never ends with an exception, and always sends a body. *)
Lemma proxyImage_always_answers parseURL random request target :
  fst (proxyImage parseURL random request target initialState) = Normal tt /\
  is_Some (sent (res (handle parseURL random request target))).
Proof.
  unfold handle.
  destruct (truthy target) eqn:Ht.
  2: { rewrite (proxyImage_missing parseURL random request target Ht).
       split; [reflexivity | eexists; reflexivity]. }
  destruct (isValidImageUrl parseURL target) eqn:Hv.
  2: { rewrite (proxyImage_invalid parseURL random request target Ht Hv).
       split; [reflexivity | eexists; reflexivity]. }
  rewrite (proxyImage_validRun parseURL random request target Ht Hv).
  unfold validRun.
  destruct (request 0 _); [split; [reflexivity | eexists; reflexivity]|].
  destruct (request 1 _); [split; [reflexivity | eexists; reflexivity]|].
  destruct (request 2 _); [split; [reflexivity | eexists; reflexivity]|].
  rewrite respondError_run. split; [reflexivity | eexists; reflexivity].
Qed.

Lemma handle_exhausted_res parseURL random request target e1 e2 e3 :
  truthy target = true ->
  isValidImageUrl parseURL target = true ->
  request 0 (attempt1 random target) = inr e1 ->
  request 1 (attempt2 random target) = inr e2 ->
  request 2 (attempt3 random target) = inr e3 ->
  res (handle parseURL random request target) =
  if code_is e3 "ENOTFOUND" || code_is e3 "ECONNREFUSED"
  then jsonResponse 404 "Image not found"
  else if response_status_is e3 403 then jsonResponse 403 "Access forbidden"
  else if code_is e3 "ETIMEDOUT" then jsonResponse 408 "Request timeout"
  else jsonResponse 500 "Failed to fetch image".
Proof.
  intros Ht Hv H1 H2 H3. unfold handle.
  rewrite (handle_exhausted parseURL random request target e1 e2 e3
             Ht Hv H1 H2 H3).
  rewrite respondError_run. cbn [snd answered res freshResponse outHeaders].
  destruct (code_is e3 "ENOTFOUND" || code_is e3 "ECONNREFUSED");
    [reflexivity|].
  destruct (response_status_is e3 403); [reflexivity|].
  destruct (code_is e3 "ETIMEDOUT"); reflexivity.
Qed.

(** C4. When all three strategies fail, the error of the last one is
    classified in this order: a failed DNS resolution (ENOTFOUND) or a
    refused connection (ECONNREFUSED) is answered 404 "Image not found";
    otherwise an upstream response with status 403 is answered
    403 "Access forbidden"; otherwise every error that is not a timeout
    (ETIMEDOUT) is answered 500 "Failed to fetch image".  In every case the
    handler completes and a body has been sent. *)
Theorem exhaustion_classified
  (parseURL : string -> option URL) (random : nat -> Random)
  (request : nat -> AxiosConfig -> AxiosResult)
  (target : QueryValue) (e1 e2 e3 : AxiosError) :
  truthy target = true ->
  isValidImageUrl parseURL target = true ->
  request 0 (attempt1 random target) = inr e1 ->
  request 1 (attempt2 random target) = inr e2 ->
  request 2 (attempt3 random target) = inr e3 ->
  let out := res (handle parseURL random request target) in
  (code e3 = Some "ENOTFOUND" \/ code e3 = Some "ECONNREFUSED" ->
     out = jsonResponse 404 "Image not found") /\
  (code e3 <> Some "ENOTFOUND" -> code e3 <> Some "ECONNREFUSED" ->
   (exists r, response e3 = Some r /\ status r = 403%Z) ->
     out = jsonResponse 403 "Access forbidden") /\
  (code e3 <> Some "ENOTFOUND" -> code e3 <> Some "ECONNREFUSED" ->
   ~ (exists r, response e3 = Some r /\ status r = 403%Z) ->
   code e3 <> Some "ETIMEDOUT" ->
     out = jsonResponse 500 "Failed to fetch image") /\
  fst (proxyImage parseURL random request target initialState) = Normal tt /\
  is_Some (sent out).
Proof.
  intros Ht Hv H1 H2 H3 out. subst out.
  rewrite (handle_exhausted_res parseURL random request target e1 e2 e3
             Ht Hv H1 H2 H3).
  split_and!.
  - intros Hc.
    assert (Hb : code_is e3 "ENOTFOUND" || code_is e3 "ECONNREFUSED" = true).
    { apply orb_true_iff. destruct Hc as [Hc|Hc]; [left|right];
        apply code_is_true, Hc. }
    rewrite Hb. reflexivity.
  - intros Hn Hr Hs.
    apply code_is_false in Hn, Hr. apply response_status_is_true in Hs.
    rewrite Hn, Hr, Hs. reflexivity.
  - intros Hn Hr Hs Hto.
    apply code_is_false in Hn, Hr, Hto.
    rewrite <- response_status_is_true in Hs. apply not_true_is_false in Hs.
    rewrite Hn, Hr, Hs, Hto. reflexivity.
  - apply proxyImage_always_answers.
  - destruct (code_is e3 "ENOTFOUND" || code_is e3 "ECONNREFUSED");
      [eexists; reflexivity|].
    destruct (response_status_is e3 403); [eexists; reflexivity|].
    destruct (code_is e3 "ETIMEDOUT"); eexists; reflexivity.
Qed.

Lemma exhaustion_classified_witness :
  res (handle sampleParse sampleRandom (viaAxios upstreamRefusing)
         sampleTarget) =
  jsonResponse 404 "Image not found".
Proof.
  destruct (exhaustion_classified sampleParse sampleRandom
              (viaAxios upstreamRefusing) sampleTarget
              _ _ _ eq_refl eq_refl eq_refl eq_refl eq_refl)
    as (H404 & _).
  apply H404. right. reflexivity.
Defined.

(** The same classification read at the transport level, through the
    client library: what the last attempt ran into decides the answer. *)
Lemma exhaustion_by_outcome parseURL random upstream target :
  truthy target = true ->
  isValidImageUrl parseURL target = true ->
  failed (viaAxios upstream) 0 (attempt1 random target) ->
  failed (viaAxios upstream) 1 (attempt2 random target) ->
  forall e3, viaAxios upstream 2 (attempt3 random target) = inr e3 ->
  res (handle parseURL random (viaAxios upstream) target) =
  match upstream 2 (attempt3 random target) with
  | Axios.Responded st _ _ =>
      if (st =? 403)%Z then jsonResponse 403 "Access forbidden"
      else jsonResponse 500 "Failed to fetch image"
  | Axios.SystemError c _ =>
      if String.eqb c "ENOTFOUND" || String.eqb c "ECONNREFUSED"
      then jsonResponse 404 "Image not found"
      else if String.eqb c "ETIMEDOUT"
      then jsonResponse 408 "Request timeout"
      else jsonResponse 500 "Failed to fetch image"
  | Axios.TimeoutElapsed => jsonResponse 500 "Failed to fetch image"
  end.
Proof.
  intros Ht Hv [e1 H1] [e2 H2] e3 H3.
  rewrite (handle_exhausted_res parseURL random (viaAxios upstream) target
             e1 e2 e3 Ht Hv H1 H2 H3).
  unfold viaAxios in H3.
  destruct (upstream 2 (attempt3 random target)) as [st hs body|c msg|];
    cbn [Axios.settle] in H3.
  - destruct (Axios.validateStatus st) eqn:Hok; [discriminate|].
    injection H3 as <-.
    unfold code_is, response_status_is; cbn [code response status].
    unfold Axios.badStatusCode.
    destruct ((400 <=? st)%Z && (st <? 500)%Z);
      [reflexivity|].
    destruct ((500 <=? st)%Z && (st <? 600)%Z); reflexivity.
  - injection H3 as <-. reflexivity.
  - injection H3 as <-. reflexivity.
Qed.

(** ** Timeouts *)

(** The branch for timeouts is taken for an error whose code is ETIMEDOUT,
    the code of a timeout reported by the operating system. *)
Lemma etimedout_answered_408 parseURL random request target e1 e2 e3 :
  truthy target = true ->
  isValidImageUrl parseURL target = true ->
  request 0 (attempt1 random target) = inr e1 ->
  request 1 (attempt2 random target) = inr e2 ->
  request 2 (attempt3 random target) = inr e3 ->
  code e3 = Some "ETIMEDOUT" ->
  response e3 = None ->
  res (handle parseURL random request target) =
  jsonResponse 408 "Request timeout".
Proof.
  intros Ht Hv H1 H2 H3 Hc Hr.
  rewrite (handle_exhausted_res parseURL random request target e1 e2 e3
             Ht Hv H1 H2 H3).
  unfold code_is, response_status_is. rewrite Hc, Hr. reflexivity.
Qed.

(** The error of an elapsed request timeout carries the code ECONNABORTED,
    which no branch of the [catch] block tests. *)
Lemma timeout_elapsed_answered_500 parseURL random upstream target :
  truthy target = true ->
  isValidImageUrl parseURL target = true ->
  failed (viaAxios upstream) 0 (attempt1 random target) ->
  failed (viaAxios upstream) 1 (attempt2 random target) ->
  upstream 2 (attempt3 random target) = Axios.TimeoutElapsed ->
  res (handle parseURL random (viaAxios upstream) target) =
  jsonResponse 500 "Failed to fetch image".
Proof.
  intros Ht Hv F1 F2 H3.
  assert (Hrej : exists e3,
            viaAxios upstream 2 (attempt3 random target) = inr e3).
  { unfold viaAxios. rewrite H3. eexists. reflexivity. }
  destruct Hrej as [e3 He3].
  rewrite (exhaustion_by_outcome parseURL random upstream target
             Ht Hv F1 F2 e3 He3).
  rewrite H3. reflexivity.
Qed.

(** C5, at a request whose three attempts all run into the 25 second
    timeout: three calls are made, each with [timeout] 25000, and the answer
    is 500 "Failed to fetch image", not 408. *)
Theorem all_attempts_time_out_answer :
  let final := handle sampleParse sampleRandom (viaAxios upstreamSilent)
                 sampleTarget in
  map timeout (calls final) = [25000; 25000; 25000]%Z /\
  res final = jsonResponse 500 "Failed to fetch image" /\
  statusCode (res final) <> 408%Z /\
  console final =
    [firstFailureLine; "Proxy error: timeout of 25000ms exceeded"].
Proof.
  cbv zeta. split_and!.
  - reflexivity.
  - apply timeout_elapsed_answered_500; try reflexivity;
      eexists; reflexivity.
  - discriminate.
  - reflexivity.
Qed.

(** ** The surfaced error *)

(** C6. When all three strategies fail, the [catch] block runs on the error
    of strategy 3: the response and the logged line are computed from it
    alone, whatever the errors of strategies 1 and 2 were. *)
Theorem last_error_is_surfaced
  (parseURL : string -> option URL) (random : nat -> Random)
  (request : nat -> AxiosConfig -> AxiosResult)
  (target : QueryValue) (e1 e2 e3 : AxiosError) :
  truthy target = true ->
  isValidImageUrl parseURL target = true ->
  request 0 (attempt1 random target) = inr e1 ->
  request 1 (attempt2 random target) = inr e2 ->
  request 2 (attempt3 random target) = inr e3 ->
  proxyImage parseURL random request target initialState =
    respondError e3
      {| draws := 5;
         calls := [attempt1 random target; attempt2 random target;
                   attempt3 random target];
         console := [firstFailureLine];
         res := freshResponse |} /\
  console (handle parseURL random request target) =
    [firstFailureLine; "Proxy error: " ++ message e3] /\
  forall request' e1' e2',
    request' 0 (attempt1 random target) = inr e1' ->
    request' 1 (attempt2 random target) = inr e2' ->
    request' 2 (attempt3 random target) = inr e3 ->
    handle parseURL random request' target =
    handle parseURL random request target.
Proof.
  intros Ht Hv H1 H2 H3.
  pose proof (handle_exhausted parseURL random request target e1 e2 e3
                Ht Hv H1 H2 H3) as Hrun.
  split_and!.
  - exact Hrun.
  - unfold handle. rewrite Hrun, respondError_run. reflexivity.
  - intros request' e1' e2' H1' H2' H3'. unfold handle.
    rewrite Hrun.
    rewrite (handle_exhausted parseURL random request' target e1' e2' e3
               Ht Hv H1' H2' H3').
    reflexivity.
Qed.

Lemma last_error_is_surfaced_witness :
  res (handle sampleParse sampleRandom (viaAxios upstreamRefusedThenForbidden)
         sampleTarget) =
    jsonResponse 403 "Access forbidden" /\
  console (handle sampleParse sampleRandom
             (viaAxios upstreamRefusedThenForbidden) sampleTarget) =
    [firstFailureLine; "Proxy error: Request failed with status code 403"].
Proof.
  destruct (last_error_is_surfaced sampleParse sampleRandom
              (viaAxios upstreamRefusedThenForbidden) sampleTarget
              _ _ _ eq_refl eq_refl eq_refl eq_refl eq_refl)
    as (Hrun & Hlog & _).
  split; [|exact Hlog].
  unfold handle. rewrite Hrun. reflexivity.
Defined.

(** ** The user agent *)

Lemma attempts_user_agent random target :
  headers (attempt1 random target) !! "User-Agent" = Some (chosenUA random) /\
  headers (attempt2 random target) !! "User-Agent" = Some (chosenUA random) /\
  headers (attempt3 random target) !! "User-Agent" = Some (chosenUA random).
Proof. split_and!; reflexivity. Qed.

(** C7. On an accepted request one user agent is chosen, with the first
    random value of the request and from the pool of four, and every network
    call of the request carries it in its User-Agent header. *)
Theorem user_agent_fixed_per_request
  (parseURL : string -> option URL) (random : nat -> Random)
  (request : nat -> AxiosConfig -> AxiosResult) (target : QueryValue) :
  truthy target = true ->
  isValidImageUrl parseURL target = true ->
  (4 <= length userAgents)%nat /\
  exists ua,
    ua = pickUserAgent (random 0) /\
    In ua userAgents /\
    (1 <= draws (handle parseURL random request target))%nat /\
    calls (handle parseURL random request target) <> [] /\
    Forall (fun config => headers config !! "User-Agent" = Some ua)
           (calls (handle parseURL random request target)).
Proof.
  intros Ht Hv. split; [reflexivity|].
  exists (pickUserAgent (random 0)). split; [reflexivity|]. split.
  { destruct (pickUserAgent_in_pool (random 0)) as (i & _ & Hi).
    apply list_elem_of_In. eapply list_elem_of_lookup_2, Hi. }
  destruct (attempts_user_agent random target) as (U1 & U2 & U3).
  rewrite (handle_validRun parseURL random request target Ht Hv).
  unfold validRun.
  destruct (request 0 _).
  { cbn [snd calls draws]. split_and!; [lia | discriminate | ].
    repeat constructor; assumption. }
  destruct (request 1 _).
  { cbn [snd calls draws]. split_and!; [lia | discriminate | ].
    repeat constructor; assumption. }
  destruct (request 2 _).
  { cbn [snd calls draws]. split_and!; [lia | discriminate | ].
    repeat constructor; assumption. }
  rewrite respondError_run. cbn [snd answered calls draws].
  split_and!; [lia | discriminate | ].
  repeat constructor; assumption.
Qed.

Lemma user_agent_fixed_per_request_witness :
  Forall (fun config =>
            headers config !! "User-Agent" = Some (pickUserAgent rnd_half))
    (calls (handle sampleParse sampleRandom (viaAxios upstreamRefusing)
              sampleTarget)).
Proof.
  destruct (user_agent_fixed_per_request sampleParse sampleRandom
              (viaAxios upstreamRefusing) sampleTarget eq_refl eq_refl)
    as (_ & ua & -> & _ & _ & _ & Hall).
  exact Hall.
Defined.

(** * Further properties of the program *)

(** ** Occurrences and suffixes *)

Lemma append_nil (b : string) : "" ++ b = b.
Proof. reflexivity. Qed.

Lemma append_cons (x : Ascii.ascii) (a b : string) :
  String x a ++ b = String x (a ++ b).
Proof. reflexivity. Qed.

Lemma append_assoc (a b c : string) : (a ++ b) ++ c = a ++ (b ++ c).
Proof.
  induction a as [|x a IH]; [reflexivity|].
  rewrite !append_cons, IH. reflexivity.
Qed.

Lemma append_empty_r (a : string) : a ++ "" = a.
Proof.
  induction a as [|x a IH]; [reflexivity|].
  rewrite append_cons, IH. reflexivity.
Qed.

Lemma length_append (a b : string) :
  String.length (a ++ b) = (String.length a + String.length b)%nat.
Proof.
  induction a as [|x a IH]; [reflexivity|].
  rewrite append_cons. cbn [String.length]. rewrite IH. reflexivity.
Qed.

Lemma substring_full (t : string) :
  String.substring 0 (String.length t) t = t.
Proof. induction t as [|y t IH]; cbn; congruence. Qed.

Lemma startsWith_iff s d :
  JsString.startsWith s d = true <-> exists q, s = d ++ q.
Proof.
  unfold JsString.startsWith. revert s.
  induction d as [|x d IH]; intros s.
  - destruct s; cbn [String.prefix];
      (split; [intros _; eexists; reflexivity | reflexivity]).
  - destruct s as [|y s]; cbn [String.prefix].
    + split; [discriminate | intros [q Hq]; discriminate].
    + destruct (Ascii.ascii_dec x y) as [->|Hne].
      * rewrite IH. split; intros [q Hq]; exists q.
        -- rewrite append_cons. congruence.
        -- rewrite append_cons in Hq. congruence.
      * split; [discriminate|].
        intros [q Hq]. rewrite append_cons in Hq. congruence.
Qed.

Lemma includes_iff s d :
  JsString.includes s d = true <-> exists p q, s = p ++ d ++ q.
Proof.
  split.
  - induction s as [|c s IH]; cbn [JsString.includes]; intros H.
    + rewrite orb_false_r in H. apply startsWith_iff in H as [q Hq].
      exists "", q. exact Hq.
    + apply orb_true_iff in H as [H|H].
      * apply startsWith_iff in H as [q Hq]. exists "", q. exact Hq.
      * destruct (IH H) as (p & q & ->). exists (String c p), q. reflexivity.
  - intros (p & q & ->). induction p as [|c p IH].
    + apply includes_here, startsWith_iff. exists q. reflexivity.
    + rewrite append_cons. apply includes_later, IH.
Qed.

Lemma endsWith_step c s d :
  (String.length d <= String.length s)%nat ->
  JsString.endsWith (String c s) d = JsString.endsWith s d.
Proof.
  intros Hle. unfold JsString.endsWith. cbn [String.length].
  assert (E1 : (S (String.length s) <? String.length d)%nat = false)
    by (apply Nat.ltb_ge; lia).
  assert (E2 : (String.length s <? String.length d)%nat = false)
    by (apply Nat.ltb_ge; lia).
  rewrite E1, E2.
  replace (S (String.length s) - String.length d)%nat
    with (S (String.length s - String.length d)) by lia.
  reflexivity.
Qed.

Lemma endsWith_whole d : JsString.endsWith d d = true.
Proof.
  unfold JsString.endsWith.
  rewrite Nat.ltb_irrefl, Nat.sub_diag, substring_full.
  apply String.eqb_refl.
Qed.

Lemma endsWith_length s d :
  JsString.endsWith s d = true -> (String.length d <= String.length s)%nat.
Proof.
  unfold JsString.endsWith.
  destruct (String.length s <? String.length d)%nat eqn:E; [discriminate|].
  intros _. apply Nat.ltb_ge, E.
Qed.

Lemma endsWith_iff s d :
  JsString.endsWith s d = true <-> exists p, s = p ++ d.
Proof.
  split.
  - induction s as [|c s IH]; intros H.
    + pose proof (endsWith_length _ _ H) as Hl. destruct d; [|cbn in Hl; lia].
      exists "". reflexivity.
    + pose proof (endsWith_length _ _ H) as Hl. cbn [String.length] in Hl.
      destruct (decide (String.length d = S (String.length s))) as [Hd|Hd].
      * exists "". rewrite append_nil.
        unfold JsString.endsWith in H. cbn [String.length] in H.
        rewrite Hd, Nat.ltb_irrefl, Nat.sub_diag in H.
        apply String.eqb_eq in H.
        change (S (String.length s)) with (String.length (String c s)) in H.
        rewrite substring_full in H. exact H.
      * rewrite endsWith_step in H by lia.
        destruct (IH H) as [p ->]. exists (String c p). reflexivity.
  - intros [p ->]. induction p as [|c p IH].
    + apply endsWith_whole.
    + rewrite append_cons, endsWith_step; [exact IH|].
      rewrite length_append. lia.
Qed.

Lemma includes_length s d :
  JsString.includes s d = true -> (String.length d <= String.length s)%nat.
Proof.
  intros H. apply includes_iff in H as (p & q & ->).
  rewrite !length_append. lia.
Qed.

Lemma includes_trans s d d' :
  JsString.includes s d = true -> JsString.includes d d' = true ->
  JsString.includes s d' = true.
Proof.
  intros H1 H2. apply includes_iff in H1 as (p & q & ->).
  apply includes_iff in H2 as (p' & q' & ->). apply includes_iff.
  exists (p ++ p'), (q' ++ q). rewrite !append_assoc. reflexivity.
Qed.

(** ** More on the validator *)

Lemma isValidImageUrl_includes parseURL target u :
  parseURL (toString target) = Some u ->
  isValidImageUrl parseURL target =
  existsb (fun d => JsString.includes (hostname u) d) validDomains.
Proof.
  intros H. rewrite (isValidImageUrl_parsed parseURL target u H).
  induction validDomains as [|d ds IH]; [reflexivity|].
  cbn [existsb]. rewrite includes_or_endsWith, IH. reflexivity.
Qed.

(** X1. A parsed target is accepted exactly when its host can be written as
    an allow-list entry with arbitrary text in front of it and behind it. *)
Theorem validator_accepts_padded_entries
  (parseURL : string -> option URL) (target : QueryValue) (u : URL) :
  parseURL (toString target) = Some u ->
  (isValidImageUrl parseURL target = true <->
   exists d p q, In d validDomains /\ hostname u = p ++ d ++ q).
Proof.
  intros Hu. rewrite (isValidImageUrl_includes parseURL target u Hu).
  rewrite existsb_exists. split.
  - intros (d & Hd & Hi). apply includes_iff in Hi as (p & q & Hh).
    exists d, p, q. split; assumption.
  - intros (d & p & q & Hd & Hh). exists d. split; [exact Hd|].
    apply includes_iff. exists p, q. exact Hh.
Qed.

Lemma validator_accepts_padded_entries_witness :
  exists d p q,
    In d validDomains /\ "scontent-iad3-1.cdninstagram.com" = p ++ d ++ q.
Proof.
  apply (validator_accepts_padded_entries sampleParse
           (QString "https://scontent-iad3-1.cdninstagram.com/a.jpg")
           {| hostname := "scontent-iad3-1.cdninstagram.com" |} eq_refl).
  reflexivity.
Defined.

(** X2. Two of the five allow-list entries never decide: every host that
    contains scontent.cdninstagram.com contains instagram.com, and every host
    that contains scontent.xx.fbcdn.net contains fbcdn.net.  The validator
    is the occurrence test for instagram.com, threads.net and fbcdn.net. *)
Theorem validator_decided_by_three_entries
  (parseURL : string -> option URL) (target : QueryValue) :
  isValidImageUrl parseURL target =
  match parseURL (toString target) with
  | Some u => existsb (fun d => JsString.includes (hostname u) d) coreDomains
  | None => false
  end.
Proof.
  destruct (parseURL (toString target)) as [u|] eqn:Hu.
  2: { apply isValidImageUrl_unparsed, Hu. }
  rewrite (isValidImageUrl_includes parseURL target u Hu).
  cbn [existsb validDomains coreDomains].
  destruct (JsString.includes (hostname u) "scontent.cdninstagram.com") eqn:E1.
  { rewrite (includes_trans _ _ "instagram.com" E1 eq_refl). reflexivity. }
  destruct (JsString.includes (hostname u) "scontent.xx.fbcdn.net") eqn:E2.
  { rewrite (includes_trans _ _ "fbcdn.net" E2 eq_refl).
    rewrite !orb_true_r. reflexivity. }
  reflexivity.
Qed.

(** X3. Acceptance is inherited by every host that contains an accepted
    host: text added in front of or behind an accepted host cannot make the
    validator refuse. *)
Theorem validator_accepts_every_superstring
  (parseURL : string -> option URL) (target target' : QueryValue)
  (u u' : URL) (p q : string) :
  parseURL (toString target) = Some u ->
  parseURL (toString target') = Some u' ->
  hostname u' = p ++ hostname u ++ q ->
  isValidImageUrl parseURL target = true ->
  isValidImageUrl parseURL target' = true.
Proof.
  intros Hu Hu' Hh.
  rewrite (isValidImageUrl_includes parseURL target u Hu).
  rewrite (isValidImageUrl_includes parseURL target' u' Hu').
  rewrite !existsb_exists. intros (d & Hd & Hi). exists d. split; [exact Hd|].
  apply includes_trans with (hostname u); [|exact Hi].
  apply includes_iff. exists p, q. exact Hh.
Qed.

Lemma validator_accepts_every_superstring_witness :
  isValidImageUrl sampleParseMore
    (QString "https://instagram.com.attacker.net/x.jpg") = true.
Proof.
  apply (validator_accepts_every_superstring sampleParseMore
           (QString "https://instagram.com/p/abc")
           (QString "https://instagram.com.attacker.net/x.jpg")
           {| hostname := "instagram.com" |}
           {| hostname := "instagram.com.attacker.net" |}
           "" ".attacker.net");
    reflexivity.
Defined.

(** X4. A host of fewer than nine characters is refused, in particular the
    empty host of a URL that has no authority part: the shortest allow-list
    entry, fbcdn.net, has nine. *)
Theorem validator_refuses_short_hosts
  (parseURL : string -> option URL) (target : QueryValue) (u : URL) :
  parseURL (toString target) = Some u ->
  (String.length (hostname u) < 9)%nat ->
  isValidImageUrl parseURL target = false.
Proof.
  intros Hu Hlen. rewrite (isValidImageUrl_includes parseURL target u Hu).
  apply not_true_is_false. rewrite existsb_exists. intros (d & Hd & Hi).
  apply includes_length in Hi.
  assert (Hmin : (9 <= String.length d)%nat).
  { cbn in Hd.
    repeat (destruct Hd as [<-|Hd]; [cbn; lia|]). destruct Hd. }
  lia.
Qed.

Lemma validator_refuses_short_hosts_witness :
  isValidImageUrl sampleParseMore (QString "mailto:someone@instagram.com")
  = false.
Proof.
  apply (validator_refuses_short_hosts sampleParseMore
           (QString "mailto:someone@instagram.com") {| hostname := "" |}).
  - reflexivity.
  - cbn. lia.
Defined.

(** ** Every path of the handler *)

(** Splits a statement about [handle] into the six paths of the handler:
    missing parameter, refused target, answer at strategy 1, 2 or 3, and
    exhaustion. *)
Ltac by_path parseURL random request target :=
  let Ht := fresh "Ht" in
  let Hv := fresh "Hv" in
  unfold handle;
  destruct (truthy target) eqn:Ht;
  [ destruct (isValidImageUrl parseURL target) eqn:Hv;
    [ rewrite (proxyImage_validRun parseURL random request target Ht Hv);
      unfold validRun; cbv zeta;
      destruct (request 0 (attempt1 random target)) as [?r|?e] eqn:?H1;
      [ | destruct (request 1 (attempt2 random target)) as [?r|?e] eqn:?H2;
          [ | destruct (request 2 (attempt3 random target)) as [?r|?e] eqn:?H3;
              [ | rewrite respondError_run ] ] ]
    | rewrite (proxyImage_invalid parseURL random request target Ht Hv) ]
  | rewrite (proxyImage_missing parseURL random request target Ht) ];
  cbn [snd fst res calls draws console answered freshResponse outHeaders].

(** X5. Every response is of one of two shapes.  Either the target was
    accepted, some strategy fetched an upstream response, and the answer is
    that response relayed: status 200, the cache headers, its content type
    and its bytes.  Or the answer is a JSON error whose status and text are
    one of six fixed pairs and which carries no header set by the handler:
    no text of an upstream error reaches the body, and no error answer is
    marked cacheable. *)
Theorem response_is_image_or_fixed_error
  (parseURL : string -> option URL) (random : nat -> Random)
  (request : nat -> AxiosConfig -> AxiosResult) (target : QueryValue) :
  (truthy target = true /\
   isValidImageUrl parseURL target = true /\
   exists r,
     fetched random request target r /\
     res (handle parseURL random request target) = successResponse r) \/
  (exists n msg,
     In (n, msg) errorAnswers /\ n <> 200%Z /\
     res (handle parseURL random request target) = jsonResponse n msg).
Proof.
  by_path parseURL random request target.
  - left. split_and!; [reflexivity | reflexivity |].
    exists r. split; [left; exact H1 | reflexivity].
  - left. split_and!; [reflexivity | reflexivity |].
    exists r. split; [|reflexivity].
    right. left. split; [exists e; exact H1 | exact H2].
  - left. split_and!; [reflexivity | reflexivity |].
    exists r. split; [|reflexivity].
    right. right. split_and!; [exists e; exact H1 | exists e0; exact H2 | exact H3].
  - right.
    destruct (code_is e1 "ENOTFOUND" || code_is e1 "ECONNREFUSED").
    { exists 404%Z, "Image not found". cbn. split_and!; [tauto | lia | reflexivity]. }
    destruct (response_status_is e1 403).
    { exists 403%Z, "Access forbidden". cbn. split_and!; [tauto | lia | reflexivity]. }
    destruct (code_is e1 "ETIMEDOUT").
    { exists 408%Z, "Request timeout". cbn. split_and!; [tauto | lia | reflexivity]. }
    exists 500%Z, "Failed to fetch image". cbn. split_and!; [tauto | lia | reflexivity].
  - right. exists 400%Z, "Invalid image URL". cbn.
    split_and!; [tauto | lia | reflexivity].
  - right. exists 400%Z, "URL parameter is required". cbn.
    split_and!; [tauto | lia | reflexivity].
Qed.

(** X6. The random source is consulted only when it is needed.  A request
    that is refused, for a missing parameter or by the validator, draws
    nothing and calls nothing.  An accepted request draws once, for the user
    agent, and makes one or two calls, unless strategies 1 and 2 both fail:
    exactly then strategy 3 is attempted, with the four draws of the
    synthetic address, for five draws and three calls in all. *)
Theorem draws_follow_the_strategies
  (parseURL : string -> option URL) (random : nat -> Random)
  (request : nat -> AxiosConfig -> AxiosResult) (target : QueryValue) :
  let final := handle parseURL random request target in
  let bothFail :=
    failed request 0 (attempt1 random target) /\
    failed request 1 (attempt2 random target) in
  (truthy target = false \/ isValidImageUrl parseURL target = false ->
     draws final = 0%nat /\ calls final = []) /\
  (truthy target = true -> isValidImageUrl parseURL target = true ->
     (bothFail /\ draws final = 5%nat /\ length (calls final) = 3%nat) \/
     (~ bothFail /\ draws final = 1%nat /\
      (1 <= length (calls final) <= 2)%nat)).
Proof.
  cbv zeta. split.
  - intros Hrefused. unfold handle.
    destruct (truthy target) eqn:Ht.
    + destruct Hrefused as [Hf|Hv]; [discriminate|].
      rewrite (proxyImage_invalid parseURL random request target Ht Hv).
      split; reflexivity.
    + rewrite (proxyImage_missing parseURL random request target Ht).
      split; reflexivity.
  - intros Ht Hv.
    rewrite (handle_validRun parseURL random request target Ht Hv).
    unfold validRun; cbv zeta.
    destruct (request 0 (attempt1 random target)) as [r1|e1] eqn:H1.
    { right. split_and!; [|reflexivity | cbn; lia | cbn; lia].
      intros [[e He] _]. congruence. }
    destruct (request 1 (attempt2 random target)) as [r2|e2] eqn:H2.
    { right. split_and!; [|reflexivity | cbn; lia | cbn; lia].
      intros [_ [e He]]. congruence. }
    left. split; [split; [exists e1; exact H1 | exists e2; exact H2]|].
    destruct (request 2 (attempt3 random target)) as [r3|e3].
    + split; reflexivity.
    + rewrite respondError_run. split; reflexivity.
Qed.

Lemma draws_follow_the_strategies_witness :
  draws (handle sampleParse sampleRandom (viaAxios upstreamRefusing)
           sampleTarget) = 5%nat /\
  draws (handle sampleParse sampleRandom (viaAxios upstreamWilling)
           sampleTarget) = 1%nat /\
  draws (handle sampleParse sampleRandom (viaAxios upstreamWilling)
           (QString "https://evil.example.com/x.jpg")) = 0%nat.
Proof.
  split_and!.
  - destruct (draws_follow_the_strategies sampleParse sampleRandom
                (viaAxios upstreamRefusing) sampleTarget) as [_ Hacc].
    destruct (Hacc eq_refl eq_refl) as [(_ & Hd & _) | (Hno & _)];
      [exact Hd|].
    exfalso. apply Hno. split; eexists; reflexivity.
  - destruct (draws_follow_the_strategies sampleParse sampleRandom
                (viaAxios upstreamWilling) sampleTarget) as [_ Hacc].
    destruct (Hacc eq_refl eq_refl) as [([[e He] _] & _) | (_ & Hd & _)];
      [discriminate He | exact Hd].
  - destruct (draws_follow_the_strategies sampleParse sampleRandom
                (viaAxios upstreamWilling)
                (QString "https://evil.example.com/x.jpg")) as [Hrej _].
    apply Hrej. right. reflexivity.
Defined.

Lemma attempts_fetch_target random target :
  fetchesTarget target (attempt1 random target) /\
  fetchesTarget target (attempt2 random target) /\
  fetchesTarget target (attempt3 random target).
Proof. unfold fetchesTarget. split_and!; reflexivity. Qed.

(** X7. Whatever the input and the upstream do, every network call of the
    handler is a GET for the requested value itself (the array, when the
    parameter is an array), with binary response type, a timeout of 25000 ms
    and at most 5 redirects. *)
Theorem every_call_fetches_the_target
  (parseURL : string -> option URL) (random : nat -> Random)
  (request : nat -> AxiosConfig -> AxiosResult) (target : QueryValue) :
  Forall (fetchesTarget target)
         (calls (handle parseURL random request target)).
Proof.
  destruct (attempts_fetch_target random target) as (F1 & F2 & F3).
  by_path parseURL random request target; repeat constructor; assumption.
Qed.

Lemma floorMul_octet (r : Random) : isOctet (floorMul r 256).
Proof.
  pose proof (floorMul_range r 256) as H. unfold isOctet. lia.
Qed.

(** X8. [generateRandomIP] never fails; from any state it consumes the next
    four random values, changes nothing else, and returns four decimal
    octets between 0 and 255 joined by dots. *)
Theorem generateRandomIP_dotted_quad (random : nat -> Random) (st : State) :
  let n := draws st in
  let a := floorMul (random n) 256 in
  let b := floorMul (random (1 + n)%nat) 256 in
  let c := floorMul (random (2 + n)%nat) 256 in
  let d := floorMul (random (3 + n)%nat) 256 in
  generateRandomIP random st =
    (Normal (dottedQuad a b c d),
     {| draws := (4 + n)%nat; calls := calls st; console := console st;
        res := res st |}) /\
  isOctet a /\ isOctet b /\ isOctet c /\ isOctet d.
Proof.
  cbv zeta. split; [reflexivity|]. split_and!; apply floorMul_octet.
Qed.

Lemma attempts_forwarded_for random target :
  headers (attempt1 random target) !! "X-Forwarded-For" = None /\
  headers (attempt2 random target) !! "X-Forwarded-For" = None /\
  headers (attempt3 random target) !! "X-Forwarded-For" =
    Some (syntheticIP random).
Proof. split_and!; reflexivity. Qed.

(** X9. The forwarded-for header is camouflage of strategy 3 alone: the
    first two calls of a request carry no X-Forwarded-For header, and a
    third call carries a dotted quad of octets between 0 and 255. *)
Theorem forwarded_for_only_in_third_call
  (parseURL : string -> option URL) (random : nat -> Random)
  (request : nat -> AxiosConfig -> AxiosResult) (target : QueryValue) :
  let trace := calls (handle parseURL random request target) in
  Forall (fun config => headers config !! "X-Forwarded-For" = None)
         (take 2 trace) /\
  Forall (fun config =>
            exists a b c d,
              isOctet a /\ isOctet b /\ isOctet c /\ isOctet d /\
              headers config !! "X-Forwarded-For" = Some (dottedQuad a b c d))
         (drop 2 trace).
Proof.
  cbv zeta.
  destruct (attempts_forwarded_for random target) as (F1 & F2 & F3).
  assert (Hquad : exists a b c d,
            isOctet a /\ isOctet b /\ isOctet c /\ isOctet d /\
            headers (attempt3 random target) !! "X-Forwarded-For" =
              Some (dottedQuad a b c d)).
  { exists (floorMul (random 1%nat) 256), (floorMul (random 2%nat) 256),
           (floorMul (random 3%nat) 256), (floorMul (random 4%nat) 256).
    split_and!; try apply floorMul_octet. exact F3. }
  by_path parseURL random request target; cbn [take drop];
    split; repeat constructor; assumption.
Qed.


Lemma lookup_setHeader name value (hs : gmap string string) h :
  Express.setHeader name value hs !! h =
  if decide (h = name) then Some value
  else if decide (JsString.toLowerCase h = JsString.toLowerCase name) then None
  else hs !! h.
Proof.
  unfold Express.setHeader. destruct (decide (h = name)) as [->|Hne].
  { apply lookup_insert_eq. }
  rewrite lookup_insert_ne by congruence.
  destruct (decide (JsString.toLowerCase h = JsString.toLowerCase name))
    as [Hsame|Hother].
  - apply map_lookup_filter_None. right. intros x _ Hp. apply Hp, Hsame.
  - destruct (hs !! h) as [x|] eqn:Hh.
    + apply map_lookup_filter_Some. split; [exact Hh | exact Hother].
    + apply map_lookup_filter_None. left. exact Hh.
Qed.

Lemma res_set_other field value st :
  JsString.toLowerCase field <> "content-type" ->
  res_set field value st =
  (Normal tt,
   {| draws := draws st; calls := calls st; console := console st;
      res := {| statusCode := statusCode (res st);
                outHeaders := Express.setHeader field value (outHeaders (res st));
                sent := sent (res st);
                req := req (res st) |} |}).
Proof.
  intros Hne. unfold res_set, with_res.
  apply String.eqb_neq in Hne. rewrite Hne. reflexivity.
Qed.

Lemma setCacheHeaders_run maxAge st :
  setCacheHeaders maxAge st =
  (Normal tt,
   {| draws := draws st; calls := calls st; console := console st;
      res := {| statusCode := statusCode (res st);
                outHeaders :=
                  Express.setHeader "ETag" "true"
                    (Express.setHeader "Cache-Control"
                       (cacheDirective (default 3600%Z maxAge))
                       (outHeaders (res st)));
                sent := sent (res st);
                req := req (res st) |} |}).
Proof.
  unfold setCacheHeaders, cacheDirective. cbv zeta.
  unfold mbind, M_bind, bind.
  rewrite res_set_other by discriminate.
  rewrite res_set_other by discriminate.
  reflexivity.
Qed.



(** ** The choice of the user agent *)

Lemma floorMul_eq (r : Random) (n k : Z) :
  floorMul r n = k <->
  (inject_Z k <= rvalue r * inject_Z n)%Q /\
  (rvalue r * inject_Z n < inject_Z (k + 1))%Q.
Proof.
  unfold floorMul. split.
  - intros <-. split; [apply Qfloor_le | apply Qlt_floor].
  - intros [Hlo Hhi].
    pose proof (Qfloor_resp_le _ _ Hlo) as H1. rewrite Qfloor_Z in H1.
    assert (H2 : (Qfloor (rvalue r * inject_Z n) < k + 1)%Z).
    { rewrite Zlt_Qlt. eapply Qle_lt_trans; [apply Qfloor_le | exact Hhi]. }
    lia.
Qed.

Lemma pickUserAgent_lookup (r : Random) :
  userAgents !! Z.to_nat (floorMul r 4) = Some (pickUserAgent r).
Proof.
  destruct (pickUserAgent_in_pool r) as (i & Hi & Hlook).
  unfold pickUserAgent in *. change (Z.of_nat (length userAgents)) with 4%Z in *.
  destruct (userAgents !! Z.to_nat (floorMul r 4)) as [ua|] eqn:E;
    [reflexivity|].
  apply lookup_ge_None in E.
  pose proof (floorMul_range r 4) as H. cbn [length userAgents] in E. lia.
Qed.

Lemma userAgents_NoDup : NoDup userAgents.
Proof. apply (bool_decide_unpack _). vm_compute. reflexivity. Qed.

(** X12. The four user agents share the unit interval in equal parts: the
    k-th entry of the pool is chosen exactly when the random value lies in
    the k-th quarter, k/4 <= r < (k+1)/4. *)
Theorem user_agent_chosen_by_quarter (r : Random) (k : nat) (ua : string) :
  userAgents !! k = Some ua ->
  (pickUserAgent r = ua <->
   (inject_Z (Z.of_nat k) <= rvalue r * 4)%Q /\
   (rvalue r * 4 < inject_Z (Z.of_nat k + 1))%Q).
Proof.
  intros Hk. pose proof (pickUserAgent_lookup r) as Hpick.
  pose proof (floorMul_range r 4) as Hrange.
  rewrite <- (floorMul_eq r 4 (Z.of_nat k)). split.
  - intros Heq. rewrite Heq in Hpick.
    pose proof (NoDup_lookup _ _ _ _ userAgents_NoDup Hpick Hk) as Hi. lia.
  - intros Hf. rewrite Hf, Nat2Z.id, Hk in Hpick. congruence.
Qed.

Lemma user_agent_chosen_by_quarter_witness :
  pickUserAgent rnd_half =
  "Mozilla/5.0 (X11; Linux x86_64) AppleWebKit/537.36 (KHTML, like Gecko) Chrome/120.0.0.0 Safari/537.36".
Proof.
  apply (user_agent_chosen_by_quarter rnd_half 2); [reflexivity|].
  split; [discriminate | reflexivity].
Defined.

(** ** Parameters that are not strings *)

(** X13. An array-valued parameter with a single accepted element passes
    the presence check and the validator like the element itself, and the
    network calls are then made with the array, not the string, as [url]. *)
Theorem single_element_array_is_fetched
  (parseURL : string -> option URL) (random : nat -> Random)
  (request : nat -> AxiosConfig -> AxiosResult) (s : string) :
  isValidImageUrl parseURL (QString s) = true ->
  let final := handle parseURL random request (QArray [QString s]) in
  isValidImageUrl parseURL (QArray [QString s]) = true /\
  (1 <= length (calls final))%nat /\
  Forall (fun config => url config = QArray [QString s]) (calls final).
Proof.
  intros Hs. cbv zeta.
  assert (Hv : isValidImageUrl parseURL (QArray [QString s]) = true)
    by exact Hs.
  split; [exact Hv|].
  rewrite (handle_validRun parseURL random request (QArray [QString s])
             eq_refl Hv).
  unfold validRun; cbv zeta.
  destruct (request 0 _); [cbn; split; [lia | repeat constructor]|].
  destruct (request 1 _); [cbn; split; [lia | repeat constructor]|].
  destruct (request 2 _); [cbn; split; [lia | repeat constructor]|].
  rewrite respondError_run. cbn. split; [lia | repeat constructor].
Qed.

Lemma single_element_array_is_fetched_witness :
  (1 <= length (calls (handle sampleParse sampleRandom
                         (viaAxios upstreamWilling)
                         (QArray [sampleTarget]))))%nat.
Proof.
  apply (single_element_array_is_fetched sampleParse sampleRandom
           (viaAxios upstreamWilling)
           "https://scontent.cdninstagram.com/foo.jpg" eq_refl).
Defined.

(** X14. A parameter that is present but whose string form does not parse
    is answered 400 "Invalid image URL" without a draw or a network call.
    This includes [?url[]=], the array of one empty string: unlike the empty
    string itself it counts as present. *)
Theorem present_unparsable_value_is_invalid
  (parseURL : string -> option URL) (random : nat -> Random)
  (request : nat -> AxiosConfig -> AxiosResult) (target : QueryValue) :
  truthy target = true ->
  parseURL (toString target) = None ->
  handle parseURL random request target =
  {| draws := 0; calls := []; console := [];
     res := jsonResponse 400 "Invalid image URL" |}.
Proof.
  intros Ht Hp. unfold handle.
  rewrite (proxyImage_invalid parseURL random request target Ht
             (isValidImageUrl_unparsed parseURL target Hp)).
  reflexivity.
Qed.

Lemma present_unparsable_value_is_invalid_witness :
  res (handle sampleParse sampleRandom (viaAxios upstreamWilling)
         (QArray [QString ""])) =
  jsonResponse 400 "Invalid image URL".
Proof.
  rewrite (present_unparsable_value_is_invalid sampleParse sampleRandom
             (viaAxios upstreamWilling) (QArray [QString ""])
             eq_refl eq_refl).
  reflexivity.
Defined.

(** ** Retries and validators *)

Lemma attempts_distinct random target :
  attempt1 random target <> attempt2 random target /\
  attempt1 random target <> attempt3 random target /\
  attempt2 random target <> attempt3 random target.
Proof.
  split_and!; intros Heq.
  - apply (f_equal (fun c => headers c !! "Accept")) in Heq. discriminate Heq.
  - apply (f_equal (fun c => headers c !! "Referer")) in Heq. discriminate Heq.
  - apply (f_equal (fun c => headers c !! "Referer")) in Heq. discriminate Heq.
Qed.

(** X15. No request configuration is sent twice: the network calls of a
    request are pairwise different, whatever the upstream answers. *)
Theorem no_configuration_is_retried
  (parseURL : string -> option URL) (random : nat -> Random)
  (request : nat -> AxiosConfig -> AxiosResult) (target : QueryValue) :
  NoDup (calls (handle parseURL random request target)).
Proof.
  destruct (attempts_distinct random target) as (D12 & D13 & D23).
  assert (N1 : NoDup [attempt1 random target]) by apply NoDup_singleton.
  assert (N2 : NoDup [attempt1 random target; attempt2 random target]).
  { apply NoDup_cons_2; [|apply NoDup_singleton].
    rewrite list_elem_of_singleton. exact D12. }
  assert (N3 : NoDup [attempt1 random target; attempt2 random target;
                      attempt3 random target]).
  { apply NoDup_cons_2.
    - rewrite !elem_of_cons, elem_of_nil. intros [H|[H|[]]]; congruence.
    - apply NoDup_cons_2; [|apply NoDup_singleton].
      rewrite list_elem_of_singleton. exact D23. }
  by_path parseURL random request target;
    first [exact N3 | exact N2 | exact N1 | apply NoDup_nil_2].
Qed.

(** X16. Every relayed image carries the same entity tag, the text "true":
    the ETag of a successful response does not depend on the bytes that are
    sent. *)
Theorem etag_is_constant
  (parseURL : string -> option URL) (random : nat -> Random)
  (request : nat -> AxiosConfig -> AxiosResult)
  (target : QueryValue) (r : AxiosResponse) :
  truthy target = true ->
  isValidImageUrl parseURL target = true ->
  fetched random request target r ->
  outHeaders (res (handle parseURL random request target)) !! "ETag" =
  Some "true".
Proof.
  intros Ht Hv Hf.
  rewrite (handle_fetched parseURL random request target r Ht Hv Hf).
  unfold successResponse, relayedTo; cbn [outHeaders].
  rewrite lookup_insert_ne by discriminate. apply lookup_insert_eq.
Qed.

Lemma etag_is_constant_witness :
  outHeaders (res (handle sampleParse sampleRandom (viaAxios upstreamWilling)
                     sampleTarget)) !! "ETag" = Some "true" /\
  outHeaders (res (handle sampleParse sampleRandom (viaAxios upstreamThirdTime)
                     sampleTarget)) !! "ETag" = Some "true".
Proof.
  split.
  - apply (etag_is_constant sampleParse sampleRandom (viaAxios upstreamWilling)
             sampleTarget
             {| status := 200;
                response_headers := {["content-type" := "image/png"]};
                data := [Byte.x89] |} eq_refl eq_refl).
    left. reflexivity.
  - apply (etag_is_constant sampleParse sampleRandom
             (viaAxios upstreamThirdTime) sampleTarget
             {| status := 200;
                response_headers := {["content-type" := "image/webp"]};
                data := [Byte.xff; Byte.xd8] |} eq_refl eq_refl).
    right. right. split; [eexists; reflexivity|].
    split; [eexists; reflexivity | reflexivity].
Defined.

(** ** Relaying, with the framework's part *)

Lemma handle_is_handleRequest parseURL random request target :
  handle parseURL random request target =
  handleRequest parseURL random request plainRequest target.
Proof. reflexivity. Qed.

(** The strategies leave the response object alone. *)
Lemma strategies_keep_res random request target r0 r :
  fetched random request target r ->
  exists n cs ls,
    fetchWithStrategies random request target (chosenUA random)
      {| draws := 1; calls := []; console := []; res := r0 |} =
    (Normal r, {| draws := n; calls := cs; console := ls; res := r0 |}).
Proof.
  intros [H1 | [([e1 H1] & H2) | ([e1 H1] & [e2 H2] & H3)]].
  - exists 1%nat, [attempt1 random target], []. js_run.
    change (getImage target (fullHeaders (chosenUA random)))
      with (attempt1 random target).
    rewrite H1. reflexivity.
  - exists 1%nat, [attempt1 random target; attempt2 random target],
           [firstFailureLine]. js_run.
    change (getImage target (fullHeaders (chosenUA random)))
      with (attempt1 random target).
    rewrite H1. js_run.
    change (getImage target (minimalHeaders (chosenUA random)))
      with (attempt2 random target).
    rewrite H2. reflexivity.
  - exists 5%nat, [attempt1 random target; attempt2 random target;
                   attempt3 random target], [firstFailureLine]. js_run.
    change (getImage target (fullHeaders (chosenUA random)))
      with (attempt1 random target).
    rewrite H1. js_run.
    change (getImage target (minimalHeaders (chosenUA random)))
      with (attempt2 random target).
    rewrite H2. js_run.
    change (getImage target (altHeaders _ _)) with (attempt3 random target).
    rewrite H3. reflexivity.
Qed.

(** What the end of the [try] block makes of a fetched response, for any
    request: 304 without Content-Type and body when the request is fresh
    against the tag "true", the relayed response otherwise. *)
Lemma deliver_to q response n cs ls :
  deliver response
    {| draws := n; calls := cs; console := ls; res := responseTo q |} =
  (Normal tt,
   {| draws := n; calls := cs; console := ls;
      res := if Express.fresh q (Some "true") None
             then notModifiedTo q
             else relayedTo q response |}).
Proof.
  unfold deliver. unfold mbind, M_bind. unfold bind at 1.
  rewrite setCacheHeaders_run. unfold bind at 1.
  unfold res_set at 1, with_res at 1. cbv beta iota.
  unfold res_send, with_res, req_fresh.
  cbn [res statusCode outHeaders sent req responseTo draws calls console].
  change (Express.getHeader "ETag" _) with (Some "true").
  change (Express.getHeader "Last-Modified" _) with (@None string).
  change ((200 <=? 200)%Z && (200 <? 300)%Z || (200 =? 304)%Z) with true.
  cbv iota.
  destruct (Express.fresh q (Some "true") None); reflexivity.
Qed.

Lemma handleRequest_fetched parseURL random request q target r :
  truthy target = true ->
  isValidImageUrl parseURL target = true ->
  fetched random request target r ->
  res (handleRequest parseURL random request q target) =
  if Express.fresh q (Some "true") None
  then notModifiedTo q
  else relayedTo q r.
Proof.
  intros Ht Hv Hf. unfold handleRequest, proxyImage. rewrite Ht, Hv.
  cbn [negb]. unfold try_catch at 1. unfold mbind, M_bind.
  unfold bind at 1. unfold Math_random at 1, startFor.
  cbn [draws calls console res]. unfold bind at 1.
  destruct (strategies_keep_res random request target (responseTo q) r Hf)
    as (n & cs & ls & Hrun).
  fold (chosenUA random). rewrite Hrun.
  pose proof (deliver_to q r n cs ls) as Hd.
  unfold deliver, mbind, M_bind in Hd. rewrite Hd. reflexivity.
Qed.

(** A type with a charset parameter, or outside the text types, is stored
    as it is; a text type without one gets the default charset. *)
Lemma contentTypeValue_cases T :
  (Express.charsetRegExp_test T = true \/
   Express.charsets_lookup (JsString.beforeFirst ";"%char T) = None ->
   Express.contentTypeValue T = T) /\
  (Express.charsetRegExp_test T = false ->
   Express.charsets_lookup (JsString.beforeFirst ";"%char T) = Some "UTF-8" ->
   Express.contentTypeValue T = T ++ "; charset=utf-8").
Proof.
  unfold Express.contentTypeValue. split.
  - intros [H|H].
    + rewrite H. reflexivity.
    + rewrite H. destruct (Express.charsetRegExp_test T); reflexivity.
  - intros H1 H2. rewrite H1, H2. reflexivity.
Qed.

Lemma contentTypeValue_image T :
  JsString.startsWith T "image/" = true -> Express.contentTypeValue T = T.
Proof.
  intros H. apply contentTypeValue_cases. right.
  apply startsWith_iff in H as [rest ->].
  reflexivity.
Qed.

(** Without an If-None-Match header no request is fresh for a response that
    has no Last-Modified header. *)
Lemma fresh_needs_if_none_match q etag :
  reqHeaders q !! "if-none-match" = None ->
  Express.fresh q etag None = false.
Proof.
  intros H. unfold Express.fresh. rewrite H. cbn [Express.present].
  destruct (reqHeaders q !! "if-modified-since") as [ms|]; cbn [Express.present];
    [|reflexivity].
  destruct (String.eqb ms ""); cbn [negb andb]; [reflexivity|].
  destruct (reqHeaders q !! "cache-control") as [cc|]; [|reflexivity].
  destruct (negb (String.eqb cc "") && Express.noCacheRegExp_test cc);
    reflexivity.
Qed.

(** C1, as stated, fails in two ways.  An upstream page of type text/html
    is relayed with the Content-Type "text/html; charset=utf-8"; and a
    request that revalidates with If-None-Match: true is answered 304 with
    an empty body, although the upstream was fetched. *)
Lemma relaying_not_as_declared :
  let page :=
    {| status := 200;
       response_headers := {["content-type" := "text/html"]};
       data := [Byte.x3c; Byte.x70; Byte.x3e] |} in
  let image :=
    {| status := 200;
       response_headers := {["content-type" := "image/png"]};
       data := [Byte.x89] |} in
  (fetched sampleRandom (viaAxios upstreamHtml) sampleTarget page /\
   ~ relayedAsDeclared
       (res (handle sampleParse sampleRandom (viaAxios upstreamHtml)
               sampleTarget)) page) /\
  (fetched sampleRandom (viaAxios upstreamWilling) sampleTarget image /\
   ~ relayedAsDeclared
       (res (handleRequest sampleParse sampleRandom (viaAxios upstreamWilling)
               revalidatingRequest sampleTarget)) image).
Proof.
  cbv zeta. split; split.
  - left. reflexivity.
  - intros (_ & Hct & _). vm_compute in Hct. discriminate Hct.
  - left. reflexivity.
  - intros (Hstatus & _). vm_compute in Hstatus. discriminate Hstatus.
Qed.

(** C1, amended.  When a strategy fetches a response [r] and the request is
    not fresh against the tag "true" (as is every request without an
    If-None-Match header), the outward response has status 200, allows
    public caching for 86400 seconds and carries the bytes of [r]
    unchanged.  Its Content-Type is the one the upstream declared, followed
    by "; charset=utf-8" when that has no charset parameter and is of type
    text/..., application/json... or application/javascript...; for an
    image type it is the declared one itself; and it is image/jpeg when the
    upstream declared none (no header, or an empty one). *)
Theorem success_relayed_unless_fresh
  (parseURL : string -> option URL) (random : nat -> Random)
  (request : nat -> AxiosConfig -> AxiosResult)
  (q : IncomingMessage) (target : QueryValue) (r : AxiosResponse) :
  truthy target = true ->
  isValidImageUrl parseURL target = true ->
  fetched random request target r ->
  Express.fresh q (Some "true") None = false ->
  let out := res (handleRequest parseURL random request q target) in
  statusCode out = 200%Z /\
  outHeaders out !! "Cache-Control" = Some "public, max-age=86400" /\
  sent out = Some (BufferBody (data r)) /\
  (forall T, response_headers r !! "content-type" = Some T -> T <> "" ->
     outHeaders out !! "Content-Type" =
       Some (if Express.charsetRegExp_test T then T
             else match Express.charsets_lookup
                          (JsString.beforeFirst ";"%char T) with
                  | Some _ => T ++ "; charset=utf-8"
                  | None => T
                  end) /\
     (JsString.startsWith T "image/" = true ->
      outHeaders out !! "Content-Type" = Some T)) /\
  (response_headers r !! "content-type" = None \/
   response_headers r !! "content-type" = Some "" ->
     outHeaders out !! "Content-Type" = Some "image/jpeg").
Proof.
  intros Ht Hv Hf Hstale out. subst out.
  rewrite (handleRequest_fetched parseURL random request q target r Ht Hv Hf).
  rewrite Hstale. unfold relayedTo; cbn [statusCode outHeaders sent].
  split; [reflexivity|]. split.
  { rewrite !lookup_insert_ne by discriminate. apply lookup_insert_eq. }
  split; [reflexivity|].
  rewrite lookup_insert_eq. unfold relayedContentType. split.
  - intros T HT Hne. rewrite HT. cbn [or_default].
    apply String.eqb_neq in Hne. rewrite Hne. split.
    + f_equal. unfold Express.contentTypeValue.
      destruct (Express.charsetRegExp_test T); [reflexivity|].
      destruct (Express.charsets_lookup _) as [cs|] eqn:Hcs; [|reflexivity].
      unfold Express.charsets_lookup in Hcs.
      destruct (_ || _) in Hcs; [|discriminate].
      injection Hcs as <-. reflexivity.
    + intros Himg. rewrite (contentTypeValue_image T Himg). reflexivity.
  - intros [HT|HT]; rewrite HT; reflexivity.
Qed.

Lemma success_relayed_unless_fresh_witness :
  let out :=
    res (handleRequest sampleParse sampleRandom (viaAxios upstreamThirdTime)
           staleRequest sampleTarget) in
  statusCode out = 200%Z /\
  outHeaders out !! "Cache-Control" = Some "public, max-age=86400" /\
  sent out = Some (BufferBody [Byte.xff; Byte.xd8]) /\
  outHeaders out !! "Content-Type" = Some "image/webp".
Proof.
  pose proof
    (success_relayed_unless_fresh sampleParse sampleRandom
       (viaAxios upstreamThirdTime) staleRequest sampleTarget
       {| status := 200;
          response_headers := {["content-type" := "image/webp"]};
          data := [Byte.xff; Byte.xd8] |}
       eq_refl eq_refl) as H.
  cbv zeta in H.
  destruct H as (Hs & Hc & Hb & Ht & _).
  - right. right. split; [eexists; reflexivity|].
    split; [eexists; reflexivity|]. reflexivity.
  - reflexivity.
  - split; [exact Hs|]. split; [exact Hc|]. split; [exact Hb|].
    apply (Ht "image/webp"); [reflexivity | discriminate | reflexivity].
Defined.

(** ** Requests with headers *)

Section RunsTo.

Variable parseURL : string -> option URL.
Variable random : nat -> Random.
Variable request : nat -> AxiosConfig -> AxiosResult.
Variable target : QueryValue.
Variable q : IncomingMessage.

Abbreviation d1 := (attempt1 random target).
Abbreviation d2 := (attempt2 random target).
Abbreviation d3 := (attempt3 random target).
Abbreviation strategiesTo :=
  (fetchWithStrategies random request target (chosenUA random)
     (afterPickTo q)).

Lemma strategies_first_to r :
  request 0 d1 = inl r ->
  strategiesTo =
  (Normal r,
   {| draws := 1; calls := [d1]; console := []; res := responseTo q |}).
Proof.
  intros H1. js_run. cbv delta [afterPickTo]. cbv beta iota.
  change (getImage target (fullHeaders (chosenUA random))) with d1.
  rewrite H1. reflexivity.
Qed.

Lemma strategies_second_to e1 r :
  request 0 d1 = inr e1 -> request 1 d2 = inl r ->
  strategiesTo =
  (Normal r,
   {| draws := 1; calls := [d1; d2]; console := [firstFailureLine];
      res := responseTo q |}).
Proof.
  intros H1 H2. js_run. cbv delta [afterPickTo]. cbv beta iota.
  change (getImage target (fullHeaders (chosenUA random))) with d1.
  rewrite H1. js_run.
  change (getImage target (minimalHeaders (chosenUA random))) with d2.
  rewrite H2. reflexivity.
Qed.

Lemma strategies_third_to e1 e2 r :
  request 0 d1 = inr e1 -> request 1 d2 = inr e2 -> request 2 d3 = inl r ->
  strategiesTo =
  (Normal r,
   {| draws := 5; calls := [d1; d2; d3]; console := [firstFailureLine];
      res := responseTo q |}).
Proof.
  intros H1 H2 H3. js_run. cbv delta [afterPickTo]. cbv beta iota.
  change (getImage target (fullHeaders (chosenUA random))) with d1.
  rewrite H1. js_run.
  change (getImage target (minimalHeaders (chosenUA random))) with d2.
  rewrite H2. js_run.
  change (getImage target (altHeaders _ _)) with d3.
  rewrite H3. reflexivity.
Qed.

Lemma strategies_exhausted_to e1 e2 e3 :
  request 0 d1 = inr e1 -> request 1 d2 = inr e2 -> request 2 d3 = inr e3 ->
  strategiesTo =
  (Throw e3,
   {| draws := 5; calls := [d1; d2; d3]; console := [firstFailureLine];
      res := responseTo q |}).
Proof.
  intros H1 H2 H3. js_run. cbv delta [afterPickTo]. cbv beta iota.
  change (getImage target (fullHeaders (chosenUA random))) with d1.
  rewrite H1. js_run.
  change (getImage target (minimalHeaders (chosenUA random))) with d2.
  rewrite H2. js_run.
  change (getImage target (altHeaders _ _)) with d3.
  rewrite H3. reflexivity.
Qed.

Lemma proxyImage_runFor :
  truthy target = true ->
  isValidImageUrl parseURL target = true ->
  proxyImage parseURL random request target (startFor q) =
  runFor q random request target.
Proof.
  intros Ht Hv. unfold proxyImage. rewrite Ht, Hv. cbn [negb].
  unfold runFor. cbv zeta.
  unfold try_catch at 1. unfold mbind, M_bind.
  unfold bind at 1. unfold Math_random at 1, startFor.
  cbn [draws calls console res]. unfold bind at 1.
  fold (chosenUA random). fold (afterPickTo q).
  pose proof (deliver_to q) as Hd. unfold deliver, mbind, M_bind in Hd.
  fold (delivered q) in Hd.
  destruct (request 0 d1) as [r|e1] eqn:H1.
  { rewrite (strategies_first_to _ H1). rewrite Hd. reflexivity. }
  destruct (request 1 d2) as [r|e2] eqn:H2.
  { rewrite (strategies_second_to _ _ H1 H2). rewrite Hd. reflexivity. }
  destruct (request 2 d3) as [r|e3] eqn:H3.
  { rewrite (strategies_third_to _ _ _ H1 H2 H3). rewrite Hd. reflexivity. }
  rewrite (strategies_exhausted_to _ _ _ H1 H2 H3). reflexivity.
Qed.

End RunsTo.

